(** * Predictive-maintenance backend: the rule engine, the health scorer,
      the persistence glue and the read-only endpoints of [trial.py].

    The development is a shallow embedding.  Python values that reach the
    code from JSON are an inductive type, Python floats are IEEE-754
    binary64 numbers in the Standard Library's [spec_float] formalisation,
    exceptions are an error monad, and the two MongoDB collections are
    lists of typed documents threaded through every handler.  The clock
    ([datetime.utcnow()]) is an argument of the handlers that read it, and
    an appointment's [ObjectId] is a natural number. *)

From Stdlib Require Import ZArith String Ascii List Bool Lia.
From Stdlib Require Import Floats.SpecFloat.
From stdpp Require Import base option list gmap strings pretty.

Open Scope Z_scope.

(** ** Exceptions *)

Inductive pyexn :=
| IndexError | KeyError | AttributeError | TypeError
| ValueError | OverflowError
| PyMongoError              (* any failure of the database driver *)
| HTTPException (status_code : Z).

Inductive res (A : Type) :=
| Ok (a : A)
| Raise (e : pyexn).
Arguments Ok {A} a.
Arguments Raise {A} e.

#[global] Instance res_ret : MRet res := fun _ a => Ok a.
#[global] Instance res_bind : MBind res := fun _ _ f m =>
  match m with
  | Ok a => f a
  | Raise e => Raise e
  end.

Definition is_ok {A} (r : res A) : bool :=
  match r with Ok _ => true | Raise _ => false end.

(** ** Python floats: IEEE-754 binary64 *)

Module PyFloat.

Definition prec : Z := 53.
Definition emax : Z := 1024.

Abbreviation float := spec_float.

Definition add : float -> float -> float := SFadd prec emax.
Definition sub : float -> float -> float := SFsub prec emax.
Definition mul : float -> float -> float := SFmul prec emax.
Definition div : float -> float -> float := SFdiv prec emax.

(** The double nearest to [n/d] (ties to even), signed by [s].  This is how
    a decimal literal, a decimal string and an int/int true division are
    rounded. *)
Definition of_ratio (s : bool) (n d : positive) : float :=
  let '(q, e, l) := SFdiv_core_binary prec emax (Zpos n) 0 (Zpos d) 0 in
  binary_round_aux prec emax s q e l.

(** The double nearest to the integer [z]; infinite when out of range. *)
Definition of_Z (z : Z) : float := binary_normalize prec emax z 0 false.

(** A positive decimal literal written as a fraction, e.g. [lit 126 10]
    for [12.6]. *)
Definition lit (n d : positive) : float := of_ratio false n d.

Definition is_finite (f : float) : bool :=
  match f with
  | S754_zero _ | S754_finite _ _ _ => true
  | _ => false
  end.

(** Exact comparison of a float with a mathematical integer, as Python
    compares a float with an int: [None] for NaN. *)
Definition compare_Z (f : float) (z : Z) : option comparison :=
  match f with
  | S754_nan => None
  | S754_infinity s => Some (if s then Lt else Gt)
  | S754_zero _ => Some (0 ?= z)
  | S754_finite s m e =>
      let sm := if s then Zneg m else Zpos m in
      Some (match e with
            | Zneg k => sm ?= z * 2 ^ Zpos k
            | _ => sm * 2 ^ e ?= z
            end)
  end.

Definition lt_Z (f : float) (z : Z) : bool :=
  match compare_Z f z with Some Lt => true | _ => false end.
Definition gt_Z (f : float) (z : Z) : bool :=
  match compare_Z f z with Some Gt => true | _ => false end.

(** [float(z)] for an int: OverflowError when [z] is too large. *)
Definition of_int (z : Z) : res float :=
  let f := of_Z z in
  if is_finite f then Ok f else Raise OverflowError.

(** [int(f)]: truncation toward zero; ValueError on NaN, OverflowError on
    an infinity. *)
Definition to_int (f : float) : res Z :=
  match f with
  | S754_nan => Raise ValueError
  | S754_infinity _ => Raise OverflowError
  | S754_zero _ => Ok 0
  | S754_finite s m e =>
      let a := match e with
               | Zneg k => Z.shiftr (Zpos m) (Zpos k)
               | _ => Z.shiftl (Zpos m) e
               end in
      Ok (if s then - a else a)
  end.


End PyFloat.

Abbreviation float := spec_float.

(** ** Python strings

    A [str] is its UTF-8 byte sequence.  The string methods the program
    calls are given on bytes; on well-formed UTF-8 a byte-level search for
    a well-formed needle finds exactly the code-point-level matches. *)

Module PyStr.

Open Scope string_scope.

Definition is_upper (c : ascii) : bool :=
  let n := nat_of_ascii c in (Nat.leb 65 n && Nat.leb n 90)%bool.
Definition is_lower (c : ascii) : bool :=
  let n := nat_of_ascii c in (Nat.leb 97 n && Nat.leb n 122)%bool.
Definition is_digit (c : ascii) : bool :=
  let n := nat_of_ascii c in (Nat.leb 48 n && Nat.leb n 57)%bool.
(** The ASCII characters [str.isspace] accepts: TAB, LF, VT, FF, CR,
    FS, GS, RS, US and SPACE. *)
Definition is_space (c : ascii) : bool :=
  let n := nat_of_ascii c in
  ((Nat.leb 9 n && Nat.leb n 13) || (Nat.leb 28 n && Nat.leb n 32))%bool.

Definition lower_char (c : ascii) : ascii :=
  if is_upper c then ascii_of_nat (nat_of_ascii c + 32) else c.
Definition upper_char (c : ascii) : ascii :=
  if is_lower c then ascii_of_nat (nat_of_ascii c - 32) else c.

(** [s.lower()] on the ASCII letters. *)
Fixpoint lower (s : string) : string :=
  match s with
  | EmptyString => EmptyString
  | String c s' => String (lower_char c) (lower s')
  end.

(** [sub in s]. *)
Fixpoint contains (sub s : string) : bool :=
  match s with
  | EmptyString => String.prefix sub s
  | String _ s' => String.prefix sub s || contains sub s'
  end.

Fixpoint replace_go (old new : string) (skip : nat) (s : string) : string :=
  match s with
  | EmptyString => if String.eqb old "" then new else ""
  | String c s' =>
      match skip with
      | S k => replace_go old new k s'
      | O =>
          if String.eqb old "" then new ++ String c (replace_go old new 0 s')
          else if String.prefix old s
          then new ++ replace_go old new (String.length old - 1) s'
          else String c (replace_go old new 0 s')
      end
  end.

(** [s.replace(old, new)]: every non-overlapping occurrence, left to
    right. *)
Definition replace (s old new : string) : string := replace_go old new 0 s.

Fixpoint lstrip (s : string) : string :=
  match s with
  | String c s' => if is_space c then lstrip s' else s
  | EmptyString => EmptyString
  end.

Fixpoint rstrip (s : string) : string :=
  match s with
  | EmptyString => EmptyString
  | String c s' =>
      let r := rstrip s' in
      if (is_space c && String.eqb r "")%bool then "" else String c r
  end.

Definition strip (s : string) : string := rstrip (lstrip s).

Fixpoint take_word (s : string) : string :=
  match s with
  | String c s' => if is_space c then "" else String c (take_word s')
  | EmptyString => EmptyString
  end.

(** [s.split()[0]]: the first whitespace-delimited token; IndexError when
    there is none. *)
Definition split_first (s : string) : res string :=
  match take_word (lstrip s) with
  | EmptyString => Raise IndexError
  | w => Ok w
  end.

Fixpoint title_go (prev_cased : bool) (s : string) : string :=
  match s with
  | EmptyString => EmptyString
  | String c s' =>
      let cased := (is_upper c || is_lower c)%bool in
      String (if prev_cased then lower_char c else upper_char c)
             (title_go cased s')
  end.

(** [s.title()] on the ASCII letters. *)
Definition title (s : string) : string := title_go false s.

(** [sep.join(l)]. *)
Fixpoint join (sep : string) (l : list string) : string :=
  match l with
  | [] => ""
  | [x] => x
  | x :: l' => x ++ sep ++ join sep l'
  end.

(** [str(z)] for an int. *)
Definition of_int (z : Z) : string := pretty z.

(** A two-digit, zero-padded field of [strftime] ([%d], [%H], [%M]). *)
Definition pad2 (n : nat) : string :=
  if Nat.ltb n 10 then "0" ++ pretty n else pretty n.

(** *** [float(s)] for a string

    CPython strips surrounding whitespace, removes underscores that stand
    between two digits, and then accepts an optional sign followed by
    [inf], [infinity] or [nan] in any case, or by a decimal numeral with an
    optional exponent; the value is the nearest double.  Digits and
    spaces outside ASCII, which CPython first maps to ASCII, are not
    accepted here. *)

Fixpoint strip_underscores (prev : ascii) (s : string) : option string :=
  match s with
  | EmptyString =>
      if Ascii.eqb prev "_" then None else Some EmptyString
  | String c s' =>
      if Ascii.eqb c "_" then
        if is_digit prev then strip_underscores c s' else None
      else if (Ascii.eqb prev "_" && negb (is_digit c))%bool then None
      else String c <$> strip_underscores c s'
  end.

Definition digit_val (c : ascii) : Z := Z.of_nat (nat_of_ascii c - 48).

(** Reads a run of digits: the number read on top of [acc], how many
    digits there were, and what follows. *)
Fixpoint span_digits (acc : Z) (n : Z) (s : string) : Z * Z * string :=
  match s with
  | String c s' =>
      if is_digit c
      then span_digits (10 * acc + digit_val c)%Z (n + 1)%Z s'
      else (acc, n, s)
  | EmptyString => (acc, n, s)
  end.

Definition read_sign (s : string) : bool * string :=
  match s with
  | String "-" s' => (true, s')
  | String "+" s' => (false, s')
  | _ => (false, s)
  end.

(** The exponent part: [None] when malformed, otherwise its value. *)
Definition read_exponent (s : string) : option Z :=
  match s with
  | EmptyString => Some 0%Z
  | String c s' =>
      if (Ascii.eqb c "e" || Ascii.eqb c "E")%bool then
        let '(neg, s1) := read_sign s' in
        match span_digits 0 0 s1 with
        | (v, n, EmptyString) =>
            if (0 <? n)%Z then Some (if neg then - v else v)%Z else None
        | _ => None
        end
      else None
  end.

(** The double nearest to [m * 10^e]. *)
Definition of_decimal (neg : bool) (m e : Z) : float :=
  match m with
  | Zpos p =>
      match e with
      | Zneg k => PyFloat.of_ratio neg p (10 ^ k)%positive
      | Z0 => PyFloat.of_ratio neg p 1
      | Zpos k => PyFloat.of_ratio neg (p * 10 ^ k)%positive 1
      end
  | _ => S754_zero neg
  end.

Definition parse_number (neg : bool) (s : string) : res float :=
  let '(ip, ni, s1) := span_digits 0 0 s in
  let '(m, nf, s2) :=
    match s1 with
    | String "." s1' => span_digits ip 0 s1'
    | _ => (ip, 0%Z, s1)
    end in
  if (0 <? ni + nf)%Z then
    match read_exponent s2 with
    | Some ex => Ok (of_decimal neg m (ex - nf))
    | None => Raise ValueError
    end
  else Raise ValueError.

Definition to_float (s : string) : res float :=
  match strip_underscores Ascii.zero (strip s) with
  | None => Raise ValueError
  | Some t =>
      let '(neg, body) := read_sign t in
      let word := lower body in
      if (String.eqb word "inf" || String.eqb word "infinity")%bool
      then Ok (S754_infinity neg)
      else if String.eqb word "nan" then Ok S754_nan
      else parse_number neg body
  end.

End PyStr.

Open Scope string_scope.
Open Scope Z_scope.

(** ** JSON values and the operations the handlers apply to them *)

#[local] Unset Elimination Schemes.
Inductive pyval :=
| VNone
| VBool (b : bool)
| VInt (z : Z)
| VFloat (f : float)
| VStr (s : string)
| VList (l : list pyval)
| VDict (d : list (string * pyval)).
#[local] Set Elimination Schemes.

(** One element of [request.data]: a JSON object. *)
Abbreviation Telemetry := (gmap string pyval).

(** [v < c] for an int literal [c]; a [bool] is an int, a float is compared
    exactly, anything else raises TypeError. *)
Definition py_lt_int (v : pyval) (c : Z) : res bool :=
  match v with
  | VInt z => Ok (z <? c)
  | VBool b => Ok (Z.b2z b <? c)
  | VFloat f => Ok (PyFloat.lt_Z f c)
  | _ => Raise TypeError
  end.

(** [float(v)]. *)
Definition py_float (v : pyval) : res float :=
  match v with
  | VInt z => PyFloat.of_int z
  | VBool b => Ok (PyFloat.of_Z (Z.b2z b))
  | VFloat f => Ok f
  | VStr s => PyStr.to_float s
  | _ => Raise TypeError
  end.

(** [v.replace(old, new)]: only a [str] has the method. *)
Definition py_replace (v : pyval) (old new : string) : res string :=
  match v with
  | VStr s => Ok (PyStr.replace s old new)
  | _ => Raise AttributeError
  end.

(** [v.lower()]. *)
Definition py_lower (v : pyval) : res string :=
  match v with
  | VStr s => Ok (PyStr.lower s)
  | _ => Raise AttributeError
  end.

(** A number computed by the scorer: an [int] or a [float]. *)
Inductive pynum :=
| NInt (z : Z)
| NFloat (f : float).

Definition num_float (x : pynum) : res float :=
  match x with
  | NInt z => PyFloat.of_int z
  | NFloat f => Ok f
  end.

(** [x + y]. *)
Definition py_add (x y : pynum) : res pynum :=
  match x, y with
  | NInt a, NInt b => Ok (NInt (a + b))
  | _, _ =>
      a ← num_float x; b ← num_float y; Ok (NFloat (PyFloat.add a b))
  end.

(** [x / c] for a positive int literal [c]: true division, correctly
    rounded when [x] is an int. *)
Definition py_truediv_int (x : pynum) (c : positive) : res float :=
  match x with
  | NInt Z0 => Ok (S754_zero false)
  | NInt (Zpos a) =>
      let q := PyFloat.of_ratio false a c in
      if PyFloat.is_finite q then Ok q else Raise OverflowError
  | NInt (Zneg a) =>
      let q := PyFloat.of_ratio true a c in
      if PyFloat.is_finite q then Ok q else Raise OverflowError
  | NFloat f => Ok (PyFloat.div f (PyFloat.of_Z (Zpos c)))
  end.

(** [max(0, x)] for a float [x]: the int [0] unless [x > 0]. *)
Definition py_max0 (x : float) : pynum :=
  if PyFloat.gt_Z x 0 then NFloat x else NInt 0.

(** ** Constants *)

Definition FIXED_VEHICLE_ID : string := "V101".

(** ** Utility functions *)

Definition calculate_brake_health (vibration : pyval) : res Z :=
  match vibration with
  | VNone => Ok 75
  | _ =>
      lt3 ← py_lt_int vibration 3;
      if lt3 : bool then Ok 95 else
      lt5 ← py_lt_int vibration 5;
      if lt5 : bool then Ok 80 else
      lt7 ← py_lt_int vibration 7;
      if lt7 : bool then Ok 65 else Ok 40
  end.

(** ** The records of the data model *)

Record Issue := {
  name : string;
  severity : string;
  confidence : float;
  recommended_action : string
}.

Record ComponentHealth := {
  engineHealth : pynum;
  battery : Z;
  brakes : Z;
  tirePressure : string
}.

(** [datetime.utcnow()] is an input of every handler that calls it. *)
Record datetime := {
  dt_year : nat; dt_month : nat; dt_day : nat;
  dt_hour : nat; dt_minute : nat; dt_second : nat; dt_microsecond : nat
}.

Definition engine_issue : Issue :=
  {| name := "Engine Temperature High"; severity := "high";
     confidence := PyFloat.lit 9 10;
     recommended_action := "Check cooling system" |}.

Definition oil_issue : Issue :=
  {| name := "Oil Pressure Low"; severity := "high";
     confidence := PyFloat.lit 85 100;
     recommended_action := "Check oil level" |}.

Definition battery_issue : Issue :=
  {| name := "Battery Voltage Low"; severity := "medium";
     confidence := PyFloat.lit 75 100;
     recommended_action := "Recharge or replace battery" |}.

Definition tire_issue : Issue :=
  {| name := "Tire Pressure Low"; severity := "medium";
     confidence := PyFloat.lit 7 10;
     recommended_action := "Inflate tires" |}.

(** [issues.append(i)] when [c] holds. *)
Definition append_if (c : bool) (i : Issue) (issues : list Issue) : list Issue :=
  if c then (issues ++ [i])%list else issues.

(** ** The evaluation pipeline of [run_maintenance]

    Everything the handler computes from one telemetry reading before it
    touches the database, in the order of the source. *)

Record Evaluation := {
  ev_issues : list Issue;
  ev_diagnosis_text : string;
  ev_customer_message : string;
  ev_component_health : ComponentHealth;
  ev_overall_health : Z;
  ev_schedule_text : string
}.

(** The engine temperature: [float(telemetry.get("engineTemp", "90")
    .replace("°C", ""))]. *)
Definition engine_temp_of (telemetry : Telemetry) : res float :=
  s ← py_replace (default (VStr "90") (telemetry !! "engineTemp")) "°C" "";
  PyStr.to_float s.

(** The four threshold rules. *)
Definition detect_issues (telemetry : Telemetry) (engine_temp : float)
  : res (list Issue) :=
  let issues := append_if (PyFloat.gt_Z engine_temp 100) engine_issue [] in
  oil ← py_lt_int (default (VInt 30) (telemetry !! "oilPressure")) 20;
  let issues := append_if oil oil_issue issues in
  bat ← py_lt_int
          (default (VFloat (PyFloat.lit 126 10)) (telemetry !! "batteryVoltage"))
          12;
  let issues := append_if bat battery_issue issues in
  tire ← py_lt_int (default (VInt 32) (telemetry !! "tirePressure")) 30;
  Ok (append_if tire tire_issue issues).

Definition diagnosis_text_of (issues : list Issue) : string :=
  match issues with
  | [] => "No issues detected."
  | _ => PyStr.join ", " (map (fun i => name i +:+ " — " +:+ severity i) issues)
  end.

Definition customer_message_of (issues : list Issue) : string :=
  match issues with
  | [] => "Everything is normal."
  | _ =>
      fold_left
        (fun msg i =>
           msg +:+ name i +:+ " (" +:+ severity i +:+ "): "
               +:+ recommended_action i +:+ ". ")
        issues ""
  end.

Definition feedback_of (issues : list Issue) : string :=
  match issues with
  | [] => "System operating normally."
  | _ => "Immediate maintenance recommended due to detected issues."
  end.

Definition schedule_text_of (issues : list Issue) : string :=
  match issues with
  | [] => "No appointment needed"
  | _ => "Tomorrow 10 AM"
  end.

(** The [component_health] dict. *)
Definition component_health_of (telemetry : Telemetry) (engine_temp : float)
  : res ComponentHealth :=
  let eh :=
    py_max0 (PyFloat.sub (PyFloat.of_Z 100)
               (PyFloat.mul (PyFloat.sub engine_temp (PyFloat.of_Z 90))
                            (PyFloat.of_Z 2))) in
  bv ← py_float
         (default (VFloat (PyFloat.lit 126 10)) (telemetry !! "batteryVoltage"));
  bat ← PyFloat.to_int
          (PyFloat.mul (PyFloat.div bv (PyFloat.lit 126 10)) (PyFloat.of_Z 100));
  br ← calculate_brake_health (default VNone (telemetry !! "vibration"));
  low ← py_lt_int (default (VInt 30) (telemetry !! "tirePressure")) 30;
  Ok {| engineHealth := eh; battery := bat; brakes := br;
        tirePressure := if low : bool then "Low" else "Normal" |}.

Definition tire_contribution (label : string) : Z :=
  if String.eqb label "Normal" then 100 else 70.

(** The argument of [int] in [overall_health]: the sum of the four
    contributions, divided by 4. *)
Definition health_mean (ch : ComponentHealth) : res float :=
  s1 ← py_add (engineHealth ch) (NInt (battery ch));
  s2 ← py_add s1 (NInt (brakes ch));
  s3 ← py_add s2 (NInt (tire_contribution (tirePressure ch)));
  py_truediv_int s3 4.

(** [overall_health]. *)
Definition overall_health_of (ch : ComponentHealth) : res Z :=
  q ← health_mean ch;
  PyFloat.to_int q.

Definition evaluate (telemetry : Telemetry) : res Evaluation :=
  engine_temp ← engine_temp_of telemetry;
  issues ← detect_issues telemetry engine_temp;
  ch ← component_health_of telemetry engine_temp;
  overall ← overall_health_of ch;
  Ok {| ev_issues := issues;
        ev_diagnosis_text := diagnosis_text_of issues;
        ev_customer_message := customer_message_of issues;
        ev_component_health := ch;
        ev_overall_health := overall;
        ev_schedule_text := schedule_text_of issues |}.

(** ** The two MongoDB collections

    The collections are written by this program only, so a document is a
    record; a key the handlers read with [.get] is an [option] field, and
    a collection is the list of its documents in insertion order.  Except
    in [get_dashboard_data], whose [try] is what is modelled, the handlers
    are given on a database that answers. *)

Module HistoryEntry.
Record t := {
  timestamp : datetime;
  telemetry : Telemetry;
  issues : list Issue
}.
End HistoryEntry.

Module Workflow.
Record Doc := {
  vehicle_id : string;
  telemetry : option Telemetry;
  issues : option (list Issue);
  component_health : option ComponentHealth;
  overall_health_score : option Z;
  diagnosis_summary : option string;
  customer_friendly_message : option string;
  predicted_schedule : option string;
  feedback : option string;
  last_updated : option datetime;
  history : option (list HistoryEntry.t)
}.
End Workflow.

Module Appointment.
Record Doc := {
  _id : nat;
  vehicle_id : string;
  service_type : string;
  date : string;
  time : string;
  status : string;
  recommended_by_ai : bool;
  created_at : datetime;
  updated_at : option datetime
}.
End Appointment.

Record DB := {
  workflow_collection : list Workflow.Doc;
  appointment_collection : list Appointment.Doc
}.

Definition empty_db : DB :=
  {| workflow_collection := []; appointment_collection := [] |}.

(** [workflow_collection.find_one({"vehicle_id": vid})]. *)
Definition find_workflow (vid : string) (coll : list Workflow.Doc)
  : option Workflow.Doc :=
  List.find (fun d => String.eqb (Workflow.vehicle_id d) vid) coll.

(** [workflow_collection.replace_one({"vehicle_id": vid}, doc, upsert=True)]:
    the first match is replaced; with no match [doc] is inserted. *)
Fixpoint replace_one_upsert (vid : string) (doc : Workflow.Doc)
    (coll : list Workflow.Doc) : list Workflow.Doc :=
  match coll with
  | [] => [doc]
  | d :: coll' =>
      if String.eqb (Workflow.vehicle_id d) vid then doc :: coll'
      else d :: replace_one_upsert vid doc coll'
  end.

(** The filter [{"vehicle_id": vid, "date": d, "time": t, "status": st}]. *)
Definition appointment_matches (vid d t st : string) (a : Appointment.Doc)
  : bool :=
  String.eqb (Appointment.vehicle_id a) vid
  && String.eqb (Appointment.date a) d
  && String.eqb (Appointment.time a) t
  && String.eqb (Appointment.status a) st.

Definition find_appointment (vid d t st : string)
    (coll : list Appointment.Doc) : option Appointment.Doc :=
  List.find (appointment_matches vid d t st) coll.

(** The identifier the driver gives an inserted document: one no document
    of the collection has. *)
Definition fresh_id (coll : list Appointment.Doc) : nat :=
  S (fold_right Nat.max 0%nat (map Appointment._id coll)).

(** [appointment_collection.insert_one({...})] as [run_maintenance] calls
    it. *)
Definition insert_appointment (vid service d t st : string) (now : datetime)
    (coll : list Appointment.Doc) : list Appointment.Doc :=
  (coll ++ [ {| Appointment._id := fresh_id coll;
               Appointment.vehicle_id := vid;
               Appointment.service_type := service;
               Appointment.date := d;
               Appointment.time := t;
               Appointment.status := st;
               Appointment.recommended_by_ai := true;
               Appointment.created_at := now;
               Appointment.updated_at := None |} ])%list.

(** [update_one({"_id": id}, {"$set": {"status": st, "updated_at": now}})]:
    the updated collection and [matched_count]. *)
Fixpoint update_status (id : nat) (st : string) (now : datetime)
    (coll : list Appointment.Doc) : list Appointment.Doc * nat :=
  match coll with
  | [] => ([], 0%nat)
  | a :: coll' =>
      if Nat.eqb (Appointment._id a) id then
        ({| Appointment._id := Appointment._id a;
            Appointment.vehicle_id := Appointment.vehicle_id a;
            Appointment.service_type := Appointment.service_type a;
            Appointment.date := Appointment.date a;
            Appointment.time := Appointment.time a;
            Appointment.status := st;
            Appointment.recommended_by_ai := Appointment.recommended_by_ai a;
            Appointment.created_at := Appointment.created_at a;
            Appointment.updated_at := Some now |} :: coll', 1%nat)
      else
        let '(c, n) := update_status id st now coll' in (a :: c, n)
  end.

(** ** Responses *)

Inductive Response :=
| QueryReply (customer_message : string)
| MaintenanceReport (issues anomalies : list Issue) (health_score : Z)
    (diagnosis_summary customer_message schedule feedback : string).

Definition customer_message_of_response (r : Response) : string :=
  match r with
  | QueryReply m => m
  | MaintenanceReport _ _ _ _ m _ _ => m
  end.

Definition has_key (k : string) (d : Telemetry) : bool :=
  match d !! k with Some _ => true | None => false end.

(** The test that routes a request to the natural-language branch. *)
Definition is_query (d : Telemetry) : bool :=
  has_key "user_message" d
  && negb (existsb (fun k => has_key k d)
             ["engineTemp"; "oilPressure"; "batteryVoltage"; "tirePressure"]).

(** ** The handlers *)

Section Handlers.

(** Python's [str()] of a float, a list or a dict (their [repr]); the
    program formats such a value only if one is stored as the engine
    temperature, and its text is left open. *)
Variable py_repr : pyval -> string.

(** [str(v)], as an f-string formats [v]. *)
Definition py_str (v : pyval) : string :=
  match v with
  | VStr s => s
  | VInt z => PyStr.of_int z
  | VBool true => "True"
  | VBool false => "False"
  | VNone => "None"
  | _ => py_repr v
  end.

(** The natural-language branch, after [doc] has been read. *)
Definition answer_query (doc : option Workflow.Doc) (user_question : string)
  : string :=
  match doc with
  | None => "Your vehicle is healthy. No issues detected."
  | Some doc =>
      if PyStr.contains "health" user_question then
        "Your vehicle health score is "
          +:+ PyStr.of_int (default 100 (Workflow.overall_health_score doc))
          +:+ "%"
      else if PyStr.contains "issue" user_question
              || PyStr.contains "problem" user_question then
        match default [] (Workflow.issues doc) with
        | [] => "There are no current issues."
        | issues => "Current issues: " +:+ PyStr.join ", " (map name issues)
        end
      else if PyStr.contains "schedule" user_question
              || PyStr.contains "maintenance" user_question then
        "Your maintenance is scheduled for "
          +:+ default "Not scheduled" (Workflow.predicted_schedule doc)
          +:+ "."
      else if PyStr.contains "engine temperature" user_question
              || PyStr.contains "engine temp" user_question then
        let telemetry := default ∅ (Workflow.telemetry doc) in
        let temp := default (VStr "Not available") (telemetry !! "engineTemp") in
        "Your engine temperature is " +:+ py_str temp +:+ "."
      else "Ask me about health, issues or schedule."
  end.

(** The snapshot [run_maintenance] writes. *)
Definition snapshot_of (telemetry : Telemetry) (ev : Evaluation)
    (now : datetime) (history : list HistoryEntry.t) : Workflow.Doc :=
  {| Workflow.vehicle_id := FIXED_VEHICLE_ID;
     Workflow.telemetry := Some telemetry;
     Workflow.issues := Some (ev_issues ev);
     Workflow.component_health := Some (ev_component_health ev);
     Workflow.overall_health_score := Some (ev_overall_health ev);
     Workflow.diagnosis_summary := Some (ev_diagnosis_text ev);
     Workflow.customer_friendly_message := Some (ev_customer_message ev);
     Workflow.predicted_schedule := Some (ev_schedule_text ev);
     Workflow.feedback := Some (feedback_of (ev_issues ev));
     Workflow.last_updated := Some now;
     Workflow.history := Some history |}.

(** The telemetry branch: evaluation, the snapshot write, the
    appointment. *)
Definition process_telemetry (now : datetime) (reading : Telemetry) (db : DB)
  : res Response * DB :=
  let telemetry := <["id" := VStr FIXED_VEHICLE_ID]> reading in
  match evaluate telemetry with
  | Raise e => (Raise e, db)
  | Ok ev =>
      let issues := ev_issues ev in
      let existing := find_workflow FIXED_VEHICLE_ID (workflow_collection db) in
      let history :=
        match existing with
        | Some doc => default [] (Workflow.history doc)
        | None => []
        end in
      let history :=
        (history ++ [ {| HistoryEntry.timestamp := now;
                         HistoryEntry.telemetry := telemetry;
                         HistoryEntry.issues := issues |} ])%list in
      let db1 :=
        {| workflow_collection :=
             replace_one_upsert FIXED_VEHICLE_ID
               (snapshot_of telemetry ev now history) (workflow_collection db);
           appointment_collection := appointment_collection db |} in
      let response :=
        MaintenanceReport issues issues (ev_overall_health ev)
          (ev_diagnosis_text ev) (ev_customer_message ev)
          (ev_schedule_text ev) (feedback_of issues) in
      match issues with
      | [] => (Ok response, db1)
      | _ =>
          let service_name := PyStr.join ", " (map name issues) in
          match PyStr.split_first (ev_schedule_text ev) with
          | Raise e => (Raise e, db1)
          | Ok day =>
              match find_appointment FIXED_VEHICLE_ID day "10:00 AM" "Pending"
                      (appointment_collection db1) with
              | Some _ => (Ok response, db1)
              | None =>
                  (Ok response,
                   {| workflow_collection := workflow_collection db1;
                      appointment_collection :=
                        insert_appointment FIXED_VEHICLE_ID service_name day
                          "10:00 AM" "Pending" now
                          (appointment_collection db1) |})
              end
          end
      end
  end.

(** [POST /run-maintenance]. *)
Definition run_maintenance (now : datetime) (data : list Telemetry) (db : DB)
  : res Response * DB :=
  match data with
  | [] => (Raise IndexError, db)
  | d0 :: _ =>
      if is_query d0 then
        match py_lower (default VNone (d0 !! "user_message")) with
        | Raise e => (Raise e, db)
        | Ok user_question =>
            let doc := find_workflow FIXED_VEHICLE_ID (workflow_collection db) in
            (Ok (QueryReply (answer_query doc user_question)), db)
        end
      else process_telemetry now d0 db
  end.

(** [POST /voice-query]. *)
Definition voice_query (now : datetime) (message : string) (db : DB)
  : res string * DB :=
  let '(r, db') := run_maintenance now [ {["user_message" := VStr message]} ] db in
  match r with
  | Ok response => (Ok (customer_message_of_response response), db')
  | Raise e => (Raise e, db')
  end.

End Handlers.

(** [PATCH /appointments/{id}/status]. *)
Definition update_appointment_status (now : datetime) (appointment_id : nat)
    (new_status : string) (db : DB) : res string * DB :=
  let '(coll, matched_count) :=
    update_status appointment_id new_status now (appointment_collection db) in
  let db' := {| workflow_collection := workflow_collection db;
                appointment_collection := coll |} in
  if Nat.eqb matched_count 0
  then (Raise (HTTPException 404), db')
  else (Ok "Appointment status updated successfully", db').

(** ** [GET /dashboard/data] *)

Module Dashboard.
Record Data := {
  telemetry : Telemetry;
  health_score : Z;
  component_health : option ComponentHealth;   (* [None] is the dict [{}] *)
  predicted_issues : list Issue;
  anomalies : list Issue;
  diagnosis : string;
  customer_message : string;
  schedule : string;
  feedback : string;
  last_updated : option datetime
}.
End Dashboard.

(** [doc.get(key) or d]: [d] when the key is absent or its value falsy. *)
Definition get_or {A} (falsy : A -> bool) (field : option A) (d : A) : A :=
  match field with
  | Some v => if falsy v then d else v
  | None => d
  end.

Definition empty_dict (t : Telemetry) : bool := bool_decide (t = ∅).
Definition empty_list {A} (l : list A) : bool :=
  match l with [] => true | _ => false end.
Definition empty_str (s : string) : bool := String.eqb s "".

(** The payload both fallbacks return, up to [customer_message]. *)
Definition empty_dashboard (message : string) : Dashboard.Data :=
  {| Dashboard.telemetry := ∅;
     Dashboard.health_score := 100;
     Dashboard.component_health := None;
     Dashboard.predicted_issues := [];
     Dashboard.anomalies := [];
     Dashboard.diagnosis := "";
     Dashboard.customer_message := message;
     Dashboard.schedule := "No appointment needed";
     Dashboard.feedback := "";
     Dashboard.last_updated := None |}.

(** The body of the handler's [try], given the driver call [find_one]
    that reads the workflow collection; the call may raise. *)
Definition dashboard_body (find_one : string -> res (option Workflow.Doc))
  : res Dashboard.Data :=
  found ← find_one FIXED_VEHICLE_ID;
  match found with
  | None => Ok (empty_dashboard "No data available")
  | Some doc =>
      Ok {| Dashboard.telemetry := get_or empty_dict (Workflow.telemetry doc) ∅;
            Dashboard.health_score :=
              get_or (Z.eqb 0) (Workflow.overall_health_score doc) 100;
            Dashboard.component_health := Workflow.component_health doc;
            Dashboard.predicted_issues :=
              get_or empty_list (Workflow.issues doc) [];
            Dashboard.anomalies := get_or empty_list (Workflow.issues doc) [];
            Dashboard.diagnosis :=
              get_or empty_str (Workflow.diagnosis_summary doc) "";
            Dashboard.customer_message :=
              get_or empty_str (Workflow.customer_friendly_message doc) "";
            Dashboard.schedule :=
              get_or empty_str (Workflow.predicted_schedule doc)
                "No appointment needed";
            Dashboard.feedback := get_or empty_str (Workflow.feedback doc) "";
            Dashboard.last_updated := Workflow.last_updated doc |}
  end.

(** [GET /dashboard/data]: the body under [try ... except Exception]. *)
Definition get_dashboard_data (find_one : string -> res (option Workflow.Doc))
  : res Dashboard.Data :=
  match dashboard_body find_one with
  | Ok payload => Ok payload
  | Raise _ => Ok (empty_dashboard "Error fetching data")
  end.

(** The driver call on a database that answers. *)
Definition find_one_in (db : DB) (vid : string) : res (option Workflow.Doc) :=
  Ok (find_workflow vid (workflow_collection db)).

(** ** [GET /analytics/full] *)

Record Series := {
  values : list (string * float);       (* time, value *)
  safe_range : Z * Z;
  ai_insight : string
}.

Record Violation := {
  v_parameter : string;
  v_safe_range : string;
  v_current : string;
  v_deviation : string;
  v_breach_duration : string;
  v_status : string
}.

Record TimelineEntry := {
  tl_time : string;
  tl_stage : string;
  tl_description : string
}.

Record Analytics := {
  sensors : list (string * Series);
  violations : list Violation;
  timeline : list TimelineEntry
}.

(** [l[-n:]] for a positive [n]. *)
Definition last_n {A} (n : nat) (l : list A) : list A :=
  drop (length l - n) l.

(** [float(str(v).replace("°C", ""))].  The [str] of a float is its
    shortest [repr], which has no degree sign and which [float] reads back
    as the same double; the [str] of a list or of a dict starts with a
    bracket, which [float] rejects. *)
Definition series_value (v : pyval) : res float :=
  match v with
  | VStr s => PyStr.to_float (PyStr.replace s "°C" "")
  | VInt z => PyStr.to_float (PyStr.replace (PyStr.of_int z) "°C" "")
  | VBool true => PyStr.to_float (PyStr.replace "True" "°C" "")
  | VBool false => PyStr.to_float (PyStr.replace "False" "°C" "")
  | VNone => PyStr.to_float (PyStr.replace "None" "°C" "")
  | VFloat f => Ok f
  | VList _ | VDict _ => Raise ValueError
  end.

(** [t.strftime("%H:%M")]. *)
Definition strftime_HM (t : datetime) : string :=
  PyStr.pad2 (dt_hour t) +:+ ":" +:+ PyStr.pad2 (dt_minute t).

(** [t.strftime("Day %d — %H:%M")]. *)
Definition strftime_day_HM (t : datetime) : string :=
  "Day " +:+ PyStr.pad2 (dt_day t) +:+ " — " +:+ strftime_HM t.

(** The loop of [build_series] over the window. *)
Fixpoint series_values (key : string) (window : list HistoryEntry.t)
  : res (list (string * float)) :=
  match window with
  | [] => Ok []
  | h :: window' =>
      match HistoryEntry.telemetry h !! key with
      | Some v =>
          x ← series_value v;
          rest ← series_values key window';
          Ok ((strftime_HM (HistoryEntry.timestamp h), x) :: rest)
      | None => series_values key window'
      end
  end.

Definition build_series (history : list HistoryEntry.t) (key : string)
    (range : Z * Z) : res Series :=
  vals ← series_values key (last_n 24 history);
  Ok {| values := vals;
        safe_range := range;
        ai_insight :=
          PyStr.title (PyStr.replace key "_" " ")
            +:+ " trend indicates deviation from safe operating range." |}.

Definition violation_of (issue : Issue) : Violation :=
  {| v_parameter := name issue;
     v_safe_range := "See specs";
     v_current := "Out of range";
     v_deviation := severity issue;
     v_breach_duration := "—";
     v_status :=
       if String.eqb (severity issue) "high" then "Critical" else "Moderate" |}.

(** The loop that builds the failure timeline over the window. *)
Fixpoint timeline_of (window : list HistoryEntry.t) : list TimelineEntry :=
  match window with
  | [] => []
  | h :: window' =>
      match HistoryEntry.issues h with
      | first :: _ =>
          {| tl_time := strftime_day_HM (HistoryEntry.timestamp h);
             tl_stage := name first;
             tl_description := recommended_action first |}
          :: timeline_of window'
      | [] => timeline_of window'
      end
  end.

Definition get_full_analytics (db : DB) : res Analytics :=
  match find_workflow FIXED_VEHICLE_ID (workflow_collection db) with
  | None => Ok {| sensors := []; violations := []; timeline := [] |}
  | Some doc =>
      let history := default [] (Workflow.history doc) in
      engine ← build_series history "engineTemp" (70, 95);
      oil ← build_series history "oilPressure" (25, 65);
      bat ← build_series history "batteryVoltage" (12, 14);
      tire ← build_series history "tirePressure" (32, 36);
      Ok {| sensors := [ ("engine_temperature", engine);
                         ("oil_pressure", oil);
                         ("battery_voltage", bat);
                         ("tire_pressure", tire) ];
            violations := map violation_of (default [] (Workflow.issues doc));
            timeline := timeline_of (last_n 6 history) |}
  end.

(** ** The health scorer as the specification words it

    [battery = round(batteryVoltage / 12.6 × 100)] and [overall =
    round((engineHealth + battery + brakes + tireContribution) / 4)], with
    Python's [round]; defined only to be compared with the code. *)




(** ** Reading the model *)

Definition response_issues (r : Response) : list Issue :=
  match r with
  | QueryReply _ => []
  | MaintenanceReport issues _ _ _ _ _ _ => issues
  end.

Definition report_of (ev : Evaluation) : Response :=
  MaintenanceReport (ev_issues ev) (ev_issues ev) (ev_overall_health ev)
    (ev_diagnosis_text ev) (ev_customer_message ev) (ev_schedule_text ev)
    (feedback_of (ev_issues ev)).

(** [telemetry["id"] = FIXED_VEHICLE_ID]. *)
Definition with_id (reading : Telemetry) : Telemetry :=
  <["id" := VStr FIXED_VEHICLE_ID]> reading.

Definition stored_snapshot (db : DB) : option Workflow.Doc :=
  find_workflow FIXED_VEHICLE_ID (workflow_collection db).

Definition stored_history (db : DB) : list HistoryEntry.t :=
  match stored_snapshot db with
  | Some doc => default [] (Workflow.history doc)
  | None => []
  end.


Definition is_pending (a : Appointment.Doc) : bool :=
  String.eqb (Appointment.vehicle_id a) FIXED_VEHICLE_ID
  && String.eqb (Appointment.status a) "Pending".

(** How many Pending appointments the fixed vehicle has. *)
Definition pending_count (db : DB) : nat :=
  length (List.filter is_pending (appointment_collection db)).

(** The test sample of the specification. *)
Definition sample_reading : Telemetry :=
  <["engineTemp" := VStr "105°C"]>
    (<["oilPressure" := VInt 15]>
       (<["batteryVoltage" := VFloat (PyFloat.lit 126 10)]>
          (<["tirePressure" := VInt 32]> ∅))).

Definition sample_time : datetime :=
  {| dt_year := 2024; dt_month := 5; dt_day := 17;
     dt_hour := 9; dt_minute := 30; dt_second := 0; dt_microsecond := 0 |}.

(** The endpoints that write, as operations on the database. *)
Inductive Op :=
| RunMaintenance (now : datetime) (data : list Telemetry)
| UpdateStatus (now : datetime) (appointment_id : nat) (new_status : string).

Definition step (py_repr : pyval -> string) (db : DB) (op : Op) : DB :=
  match op with
  | RunMaintenance now data => snd (run_maintenance py_repr now data db)
  | UpdateStatus now id st => snd (update_appointment_status now id st db)
  end.

(** Sequential execution: one request after the other. *)
Definition execute (py_repr : pyval -> string) (ops : list Op) (db : DB) : DB :=
  fold_left (step py_repr) ops db.

(** The history entry a request appends: none for a query, for an empty
    request and for a reading whose evaluation raises. *)
Definition entry_of (op : Op) : option HistoryEntry.t :=
  match op with
  | RunMaintenance now (d0 :: _) =>
      if is_query d0 then None
      else match evaluate (with_id d0) with
           | Ok ev => Some {| HistoryEntry.timestamp := now;
                              HistoryEntry.telemetry := with_id d0;
                              HistoryEntry.issues := ev_issues ev |}
           | Raise _ => None
           end
  | _ => None
  end.

(** A status update that sets the status to Pending. *)
Definition reopens (op : Op) : bool :=
  match op with
  | UpdateStatus _ _ st => String.eqb st "Pending"
  | RunMaintenance _ _ => false
  end.

(** The entry one telemetry run appends to the history. *)
Definition new_entry (now : datetime) (reading : Telemetry) (ev : Evaluation)
  : HistoryEntry.t :=
  {| HistoryEntry.timestamp := now;
     HistoryEntry.telemetry := with_id reading;
     HistoryEntry.issues := ev_issues ev |}.

(** The appointment collection after a telemetry run that found
    [issues]. *)
Definition appointments_after (now : datetime) (issues : list Issue)
    (appts : list Appointment.Doc) : list Appointment.Doc :=
  match issues with
  | [] => appts
  | _ =>
      match find_appointment FIXED_VEHICLE_ID "Tomorrow" "10:00 AM" "Pending"
              appts with
      | Some _ => appts
      | None =>
          insert_appointment FIXED_VEHICLE_ID (PyStr.join ", " (map name issues))
            "Tomorrow" "10:00 AM" "Pending" now appts
      end
  end.

(** The database after a telemetry run whose evaluation is [ev]. *)
Definition db_after_run (now : datetime) (reading : Telemetry)
    (ev : Evaluation) (db : DB) : DB :=
  {| workflow_collection :=
       replace_one_upsert FIXED_VEHICLE_ID
         (snapshot_of (with_id reading) ev now
            (stored_history db ++ [new_entry now reading ev])%list)
         (workflow_collection db);
     appointment_collection :=
       appointments_after now (ev_issues ev) (appointment_collection db) |}.



(** The battery voltage the scorer reads. *)
Definition battery_voltage_of (telemetry : Telemetry) : res float :=
  py_float (default (VFloat (PyFloat.lit 126 10)) (telemetry !! "batteryVoltage")).


(** A reading with a battery at 12.2 V and nothing else. *)
Definition low_battery_reading : Telemetry :=
  {["batteryVoltage" := VFloat (PyFloat.lit 122 10)]}.

(** What the sample evaluates to. *)
Definition sample_evaluation : Evaluation :=
  {| ev_issues := [engine_issue; oil_issue];
     ev_diagnosis_text :=
       "Engine Temperature High — high, Oil Pressure Low — high";
     ev_customer_message :=
       "Engine Temperature High (high): Check cooling system. "
         +:+ "Oil Pressure Low (high): Check oil level. ";
     ev_component_health :=
       {| engineHealth := NFloat (PyFloat.of_Z 70); battery := 100;
          brakes := 75; tirePressure := "Normal" |};
     ev_overall_health := 86;
     ev_schedule_text := "Tomorrow 10 AM" |}.

(** The slot every appointment of [run_maintenance] is booked for. *)
Definition standard_slot (a : Appointment.Doc) : Prop :=
  Appointment.vehicle_id a = FIXED_VEHICLE_ID /\
  Appointment.date a = "Tomorrow" /\
  Appointment.time a = "10:00 AM" /\
  Appointment.recommended_by_ai a = true.

(** Four sequential requests: a run books appointment 1, a status update
    resolves it, a second run books appointment 2, a status update sets
    appointment 1 back to Pending. *)
Definition reopening_trace : list Op :=
  [ RunMaintenance sample_time [sample_reading];
    UpdateStatus sample_time 1 "Resolved";
    RunMaintenance sample_time [sample_reading];
    UpdateStatus sample_time 1 "Pending" ].

(** The telemetry keys the analytics read. *)
Definition sensor_keys : list string :=
  ["engineTemp"; "oilPressure"; "batteryVoltage"; "tirePressure"].

(** The value [h] holds under [key], if any, is one [float(str(...))]
    accepts. *)
Definition convertible (key : string) (h : HistoryEntry.t) : bool :=
  match HistoryEntry.telemetry h !! key with
  | Some v => is_ok (series_value v)
  | None => true
  end.

(** Every sensor value in the last 24 entries is convertible. *)
Definition window_convertible (history : list HistoryEntry.t) : bool :=
  forallb (fun h => forallb (fun key => convertible key h) sensor_keys)
    (last_n 24 history).

(** [p] is the point of the series of [key] that comes from [h]. *)
Definition point_of (key : string) (h : HistoryEntry.t) (p : string * float)
  : Prop :=
  fst p = strftime_HM (HistoryEntry.timestamp h) /\
  exists v, HistoryEntry.telemetry h !! key = Some v /\
            series_value v = Ok (snd p).

(** [s] is the series of [key]: one point, in order, for each of the last
    24 history entries whose telemetry has the key. *)
Definition series_of (history : list HistoryEntry.t) (key : string)
    (range : Z * Z) (s : Series) : Prop :=
  safe_range s = range /\
  Forall2 (point_of key)
    (List.filter (fun h => has_key key (HistoryEntry.telemetry h))
       (last_n 24 history))
    (values s).

(** The timeline entry of a history entry that had issues. *)
Definition timeline_entry (h : HistoryEntry.t) : option TimelineEntry :=
  match HistoryEntry.issues h with
  | first :: _ =>
      Some {| tl_time := strftime_day_HM (HistoryEntry.timestamp h);
              tl_stage := name first;
              tl_description := recommended_action first |}
  | [] => None
  end.

(** The database after the sample reading has been submitted to an empty
    store. *)
Definition sample_db : DB :=
  db_after_run sample_time sample_reading sample_evaluation empty_db.

(** A reading whose oil pressure is the JSON value [true]. *)
Definition boolean_reading : Telemetry := {["oilPressure" := VBool true]}.

(** A history entry with the issues of the sample, and one without. *)
Definition entry_with_issues : HistoryEntry.t :=
  new_entry sample_time sample_reading sample_evaluation.
Definition entry_without_issues : HistoryEntry.t :=
  {| HistoryEntry.timestamp := sample_time;
     HistoryEntry.telemetry := with_id low_battery_reading;
     HistoryEntry.issues := [] |}.

(** The failure timeline as the specification words it: 6 entries,
    derived from the history entries that had issues; defined only to be
    compared with the code. *)
Definition spec_timeline (history : list HistoryEntry.t) : list TimelineEntry :=
  omap timeline_entry
    (last_n 6 (List.filter
                 (fun h => negb (empty_list (HistoryEntry.issues h))) history)).

(** Seven sequential runs on an empty store: the sample, which has
    issues, then six readings without any. *)
Definition quiet_trace : list Op :=
  RunMaintenance sample_time [sample_reading]
    :: replicate 6 (RunMaintenance sample_time [low_battery_reading]).

Definition quiet_db : DB := execute (fun _ => "") quiet_trace empty_db.

(** Concrete requests and states the properties are tried on. *)
Definition later_time : datetime :=
  {| dt_year := 2024; dt_month := 5; dt_day := 17;
     dt_hour := 9; dt_minute := 45; dt_second := 0; dt_microsecond := 0 |}.


Definition same_reading_twice : list Op :=
  [ RunMaintenance sample_time [sample_reading];
    RunMaintenance later_time [sample_reading] ].

Definition in_progress_trace : list Op :=
  [ RunMaintenance sample_time [sample_reading];
    UpdateStatus sample_time 1 "In Progress";
    RunMaintenance later_time [sample_reading] ].

Definition health_question : Telemetry :=
  {["user_message" := VStr "What's my vehicle health?"]}.

Definition sample_snapshot : Workflow.Doc :=
  snapshot_of (with_id sample_reading) sample_evaluation sample_time
    [entry_with_issues].

(** The database driver down: every read raises. *)
Definition failing_find_one (vid : string) : res (option Workflow.Doc) :=
  Raise PyMongoError.

(** ** The remaining endpoints *)

(** [GET /dashboard/stats]. *)
Record Stats := {
  total_runs : nat;
  total_issues : nat;
  critical_issues : nat
}.

(** The inner loop: the two counters over the issues of one document. *)
Definition count_issues (acc : nat * nat) (issues : list Issue) : nat * nat :=
  fold_left
    (fun '(issues_count, critical_count) issue =>
       (S issues_count,
        if String.eqb (severity issue) "high"
        then S critical_count else critical_count))
    issues acc.

Definition get_dashboard_stats (db : DB) : Stats :=
  let total := length (workflow_collection db) in
  let '(issues_count, critical_count) :=
    fold_left
      (fun acc doc => count_issues acc (default [] (Workflow.issues doc)))
      (workflow_collection db) (0%nat, 0%nat) in
  {| total_runs := total;
     total_issues := issues_count;
     critical_issues := critical_count |}.

(** [GET /appointments]: the filter [{"vehicle_id": FIXED_VEHICLE_ID,
    "status": {"$ne": "Resolved"}}].  A listed document carries its
    identifier as a string; the identifier is the same. *)
Definition get_active_appointments (db : DB) : list Appointment.Doc :=
  List.filter
    (fun a => String.eqb (Appointment.vehicle_id a) FIXED_VEHICLE_ID
              && negb (String.eqb (Appointment.status a) "Resolved"))
    (appointment_collection db).

(** [GET /appointments/history]: the filter [{"vehicle_id":
    FIXED_VEHICLE_ID, "status": "Resolved"}]. *)
Definition get_appointment_history (db : DB) : list Appointment.Doc :=
  List.filter
    (fun a => String.eqb (Appointment.vehicle_id a) FIXED_VEHICLE_ID
              && String.eqb (Appointment.status a) "Resolved")
    (appointment_collection db).

(** ** Reading the model, continued *)

(** An appointment after [{"$set": {"status": st, "updated_at": now}}]. *)
Definition with_status (st : string) (now : datetime) (a : Appointment.Doc)
  : Appointment.Doc :=
  {| Appointment._id := Appointment._id a;
     Appointment.vehicle_id := Appointment.vehicle_id a;
     Appointment.service_type := Appointment.service_type a;
     Appointment.date := Appointment.date a;
     Appointment.time := Appointment.time a;
     Appointment.status := st;
     Appointment.recommended_by_ai := Appointment.recommended_by_ai a;
     Appointment.created_at := Appointment.created_at a;
     Appointment.updated_at := Some now |}.

(** The identifiers of the stored appointments, in insertion order. *)
Definition appointment_ids (db : DB) : list nat :=
  map Appointment._id (appointment_collection db).

(** A snapshot as a telemetry run writes it: built from a reading that
    evaluates, with that run's entry last in its history. *)
Definition written_by_run (doc : Workflow.Doc) : Prop :=
  exists reading ev now older,
    evaluate (with_id reading) = Ok ev /\
    doc = snapshot_of (with_id reading) ev now
            (older ++ [new_entry now reading ev])%list.

(** The values [calculate_brake_health] can return. *)
Definition brake_scores : list Z := [75; 95; 80; 65; 40].

(** A reading that scores 0 overall: engine at 150, battery at -14 V,
    vibration 9, tires at 20. *)
Definition zero_score_reading : Telemetry :=
  <["engineTemp" := VStr "150"]>
    (<["batteryVoltage" := VInt (-14)]>
       (<["vibration" := VInt 9]>
          (<["tirePressure" := VInt 20]> ∅))).

(** A reading whose engine temperature is a JSON number. *)
Definition numeric_temp_reading : Telemetry :=
  {["engineTemp" := VInt 105]}.

(** The appointment the sample run books on the empty store. *)
Definition sample_appointment : Appointment.Doc :=
  {| Appointment._id := 1;
     Appointment.vehicle_id := FIXED_VEHICLE_ID;
     Appointment.service_type := "Engine Temperature High, Oil Pressure Low";
     Appointment.date := "Tomorrow";
     Appointment.time := "10:00 AM";
     Appointment.status := "Pending";
     Appointment.recommended_by_ai := true;
     Appointment.created_at := sample_time;
     Appointment.updated_at := None |}.

(** What [zero_score_reading] evaluates to, and the store after it. *)
Definition zero_score_evaluation : Evaluation :=
  {| ev_issues := [engine_issue; battery_issue; tire_issue];
     ev_diagnosis_text :=
       "Engine Temperature High — high, Battery Voltage Low — medium, "
         +:+ "Tire Pressure Low — medium";
     ev_customer_message :=
       "Engine Temperature High (high): Check cooling system. "
         +:+ "Battery Voltage Low (medium): Recharge or replace battery. "
         +:+ "Tire Pressure Low (medium): Inflate tires. ";
     ev_component_health :=
       {| engineHealth := NInt 0; battery := -111; brakes := 40;
          tirePressure := "Low" |};
     ev_overall_health := 0;
     ev_schedule_text := "Tomorrow 10 AM" |}.

Definition zero_score_db : DB :=
  db_after_run sample_time zero_score_reading zero_score_evaluation empty_db.

(** Two stores whose snapshots differ only in a 25th, oldest history
    entry. *)
Definition snapshot_with_history (history : list HistoryEntry.t)
  : Workflow.Doc :=
  snapshot_of (with_id sample_reading) sample_evaluation sample_time history.

Definition db_with_snapshot (doc : Workflow.Doc) : DB :=
  {| workflow_collection := [doc]; appointment_collection := [] |}.

Definition history_of_24 : list HistoryEntry.t :=
  replicate 24 entry_without_issues.

Definition history_of_25 : list HistoryEntry.t :=
  entry_with_issues :: history_of_24.

(** * Properties *)

(** ** Tactics for the error monad *)

Ltac bind_inv H :=
  unfold mbind, res_bind in H;
  repeat match type of H with
    | context [match ?m with Ok _ => _ | Raise _ => _ end] =>
        let E := fresh "E" in destruct m eqn:E; try discriminate H
    end.

Lemma in_append_if (c : bool) (i x : Issue) (l : list Issue) :
  In x (append_if c i l) <-> In x l \/ (c = true /\ x = i).
Proof.
  unfold append_if. destruct c.
  - rewrite in_app_iff. simpl. intuition.
  - intuition. discriminate.
Qed.

(** ** Comparisons of a float with an int are exclusive *)


(** ** The key written by the handler is not one the rules read *)

Lemma with_id_lookup (reading : Telemetry) (k : string) :
  k <> "id" -> with_id reading !! k = reading !! k.
Proof. intros Hk. unfold with_id. by rewrite lookup_insert_ne. Qed.

Lemma engine_temp_with_id (reading : Telemetry) :
  engine_temp_of (with_id reading) = engine_temp_of reading.
Proof. unfold engine_temp_of. by rewrite with_id_lookup. Qed.

(** ** What a telemetry run returns and stores *)

Lemma find_replace_one_upsert (vid : string) (doc : Workflow.Doc)
    (coll : list Workflow.Doc) :
  Workflow.vehicle_id doc = vid ->
  find_workflow vid (replace_one_upsert vid doc coll) = Some doc.
Proof.
  intros Hv. unfold find_workflow.
  induction coll as [|d coll IH]; simpl.
  - rewrite Hv, String.eqb_refl. reflexivity.
  - destruct (String.eqb (Workflow.vehicle_id d) vid) eqn:E; simpl.
    + rewrite Hv, String.eqb_refl. reflexivity.
    + rewrite E. exact IH.
Qed.

Lemma split_first_schedule (issues : list Issue) :
  issues <> [] -> PyStr.split_first (schedule_text_of issues) = Ok "Tomorrow".
Proof. destruct issues; [congruence | reflexivity]. Qed.

Lemma evaluate_texts (telemetry : Telemetry) (ev : Evaluation) :
  evaluate telemetry = Ok ev ->
  ev_schedule_text ev = schedule_text_of (ev_issues ev) /\
  ev_diagnosis_text ev = diagnosis_text_of (ev_issues ev) /\
  ev_customer_message ev = customer_message_of (ev_issues ev).
Proof.
  unfold evaluate. intros H. bind_inv H. inversion H; subst. simpl. auto.
Qed.

Section RunFacts.

Variable py_repr : pyval -> string.

(** A telemetry run follows its evaluation: an evaluation that raises
    leaves the database as it was, one that returns is reported and
    stored. *)
Lemma process_telemetry_eval now reading db :
  process_telemetry now reading db =
    match evaluate (with_id reading) with
    | Ok ev => (Ok (report_of ev), db_after_run now reading ev db)
    | Raise e => (Raise e, db)
    end.
Proof.
  unfold process_telemetry. fold (with_id reading).
  destruct (evaluate (with_id reading)) as [ev|e] eqn:Ev; [|reflexivity].
  destruct (evaluate_texts _ _ Ev) as (Hsch & _).
  unfold db_after_run, report_of, stored_history, stored_snapshot, new_entry,
    appointments_after.
  rewrite Hsch.
  destruct (ev_issues ev) as [|i l]; [reflexivity|].
  rewrite split_first_schedule by discriminate. simpl.
  destruct (find_appointment _ _ _ _ _); reflexivity.
Qed.

Lemma run_maintenance_eval now d0 rest db :
  is_query d0 = false ->
  run_maintenance py_repr now (d0 :: rest) db =
    match evaluate (with_id d0) with
    | Ok ev => (Ok (report_of ev), db_after_run now d0 ev db)
    | Raise e => (Raise e, db)
    end.
Proof.
  intros Hq. unfold run_maintenance. rewrite Hq.
  apply process_telemetry_eval.
Qed.

Lemma run_maintenance_report now d0 rest db r db' :
  is_query d0 = false ->
  run_maintenance py_repr now (d0 :: rest) db = (Ok r, db') ->
  exists ev, evaluate (with_id d0) = Ok ev /\ r = report_of ev /\
             db' = db_after_run now d0 ev db.
Proof.
  intros Hq H. rewrite run_maintenance_eval in H by assumption.
  destruct (evaluate (with_id d0)) as [ev|e]; [|discriminate].
  inversion H; subst. eauto.
Qed.

Lemma stored_snapshot_after_run now reading ev db :
  stored_snapshot (db_after_run now reading ev db) =
    Some (snapshot_of (with_id reading) ev now
            (stored_history db ++ [new_entry now reading ev])%list).
Proof.
  unfold stored_snapshot, db_after_run. simpl.
  apply find_replace_one_upsert. reflexivity.
Qed.

End RunFacts.

(** ** The threshold rules *)

Lemma detect_issues_ok (telemetry : Telemetry) (t : float) (issues : list Issue) :
  detect_issues telemetry t = Ok issues ->
  exists oil bat tire,
    py_lt_int (default (VInt 30) (telemetry !! "oilPressure")) 20 = Ok oil /\
    py_lt_int (default (VFloat (PyFloat.lit 126 10))
                 (telemetry !! "batteryVoltage")) 12 = Ok bat /\
    py_lt_int (default (VInt 32) (telemetry !! "tirePressure")) 30 = Ok tire /\
    issues =
      append_if tire tire_issue
        (append_if bat battery_issue
           (append_if oil oil_issue
              (append_if (PyFloat.gt_Z t 100) engine_issue []))).
Proof.
  unfold detect_issues. intros H. bind_inv H. inversion H; subst.
  eauto 10.
Qed.

Lemma in_detected (x : Issue) (e o b t : bool) :
  In x (append_if t tire_issue
          (append_if b battery_issue
             (append_if o oil_issue (append_if e engine_issue [])))) <->
  (e = true /\ x = engine_issue) \/ (o = true /\ x = oil_issue) \/
  (b = true /\ x = battery_issue) \/ (t = true /\ x = tire_issue).
Proof. rewrite !in_append_if. simpl. tauto. Qed.



Lemma sample_evaluates :
  evaluate (with_id sample_reading) = Ok sample_evaluation.
Proof. vm_compute. reflexivity. Qed.


(** ** The health scorer *)


Lemma component_health_ok (telemetry : Telemetry) (t : float)
    (ch : ComponentHealth) :
  component_health_of telemetry t = Ok ch ->
  exists bv low,
    battery_voltage_of telemetry = Ok bv /\
    PyFloat.to_int
      (PyFloat.mul (PyFloat.div bv (PyFloat.lit 126 10)) (PyFloat.of_Z 100))
      = Ok (battery ch) /\
    calculate_brake_health (default VNone (telemetry !! "vibration"))
      = Ok (brakes ch) /\
    py_lt_int (default (VInt 30) (telemetry !! "tirePressure")) 30 = Ok low /\
    tirePressure ch = (if low then "Low" else "Normal").
Proof.
  unfold component_health_of, battery_voltage_of. intros H. bind_inv H.
  inversion H; subst; simpl. eauto 10.
Qed.

Lemma evaluate_ok (telemetry : Telemetry) (ev : Evaluation) :
  evaluate telemetry = Ok ev ->
  exists t,
    engine_temp_of telemetry = Ok t /\
    detect_issues telemetry t = Ok (ev_issues ev) /\
    component_health_of telemetry t = Ok (ev_component_health ev) /\
    overall_health_of (ev_component_health ev) = Ok (ev_overall_health ev).
Proof.
  unfold evaluate. intros H. bind_inv H. inversion H; subst; simpl. eauto 10.
Qed.





(** The issues come in detection order: engine, oil, battery, tire. *)
Lemma issues_in_detection_order (telemetry : Telemetry) (t : float)
    (issues : list Issue) :
  detect_issues telemetry t = Ok issues ->
  sublist issues [engine_issue; oil_issue; battery_issue; tire_issue].
Proof.
  intros H. apply detect_issues_ok in H as (oil & bat & tire & _ & _ & _ & ->).
  destruct (PyFloat.gt_Z t 100), oil, bat, tire; simpl;
    repeat constructor.
Qed.

(** C3. On the reading [{engineTemp: "105°C", oilPressure: 15,
    batteryVoltage: 12.6, tirePressure: 32}] the handler returns exactly
    the issues Engine Temperature High and Oil Pressure Low, in that order,
    with overall health score 86, and stores engineHealth 70, battery 100,
    brakes 75 and the tire label "Normal". *)
Theorem C3_sample_reading (py_repr : pyval -> string) (now : datetime) (db : DB) :
  exists db' doc,
    run_maintenance py_repr now [sample_reading] db =
      (Ok (MaintenanceReport
             [engine_issue; oil_issue] [engine_issue; oil_issue] 86
             "Engine Temperature High — high, Oil Pressure Low — high"
             ("Engine Temperature High (high): Check cooling system. "
                +:+ "Oil Pressure Low (high): Check oil level. ")
             "Tomorrow 10 AM"
             "Immediate maintenance recommended due to detected issues."),
       db') /\
    map name [engine_issue; oil_issue] =
      ["Engine Temperature High"; "Oil Pressure Low"] /\
    stored_snapshot db' = Some doc /\
    Workflow.issues doc = Some [engine_issue; oil_issue] /\
    Workflow.component_health doc =
      Some {| engineHealth := NFloat (PyFloat.of_Z 70); battery := 100;
              brakes := 75; tirePressure := "Normal" |} /\
    Workflow.overall_health_score doc = Some 86.
Proof.
  eexists _, _. split.
  - rewrite run_maintenance_eval by reflexivity.
    rewrite sample_evaluates. reflexivity.
  - split; [reflexivity|]. split; [apply stored_snapshot_after_run|].
    repeat split.
Qed.

(** ** The tire rule and the tire label *)

Lemma tire_defaults_agree (telemetry : Telemetry) (tire low : bool) :
  py_lt_int (default (VInt 32) (telemetry !! "tirePressure")) 30 = Ok tire ->
  py_lt_int (default (VInt 30) (telemetry !! "tirePressure")) 30 = Ok low ->
  tire = low /\ (telemetry !! "tirePressure" = None -> tire = false).
Proof.
  destruct (telemetry !! "tirePressure") as [v|]; simpl.
  - intros H1 H2. split; [congruence | discriminate].
  - intros [= <-] [= <-]. split; reflexivity.
Qed.

(** C9. On the evaluation path the returned issues contain "Tire Pressure
    Low" exactly when the stored tire label is "Low"; with no
    [tirePressure] field there is no such issue and the label is "Normal",
    although the rule defaults the field to 32 and the label to 30. *)
Theorem C9_tire_issue_iff_label
    (py_repr : pyval -> string) (now : datetime) (d0 : Telemetry)
    (rest : list Telemetry) (db db' : DB) (r : Response) :
  is_query d0 = false ->
  run_maintenance py_repr now (d0 :: rest) db = (Ok r, db') ->
  exists doc ch,
    stored_snapshot db' = Some doc /\
    Workflow.component_health doc = Some ch /\
    (In tire_issue (response_issues r) <-> tirePressure ch = "Low") /\
    ((exists i, In i (response_issues r) /\ name i = "Tire Pressure Low")
     <-> tirePressure ch = "Low") /\
    (d0 !! "tirePressure" = None ->
     tirePressure ch = "Normal" /\
     forall i, In i (response_issues r) -> name i <> "Tire Pressure Low").
Proof.
  intros Hq Hrun.
  destruct (run_maintenance_report _ _ _ _ _ _ _ Hq Hrun)
    as (ev & Hev & -> & ->).
  exists (snapshot_of (with_id d0) ev now
            (stored_history db ++ [new_entry now d0 ev])%list),
         (ev_component_health ev).
  split; [apply stored_snapshot_after_run|]. split; [reflexivity|].
  apply evaluate_ok in Hev as (t & _ & Hiss & Hch & _).
  apply detect_issues_ok in Hiss as (oil & bat & tire & _ & _ & Htire & Hiss).
  apply component_health_ok in Hch as (bv & low & _ & _ & _ & Hlow & Hlabel).
  destruct (tire_defaults_agree _ _ _ Htire Hlow) as [<- Habs].
  rewrite with_id_lookup in Habs by discriminate.
  simpl response_issues. rewrite Hiss, Hlabel.
  assert (Hname : (exists i,
             In i (append_if tire tire_issue
                     (append_if bat battery_issue
                        (append_if oil oil_issue
                           (append_if (PyFloat.gt_Z t 100) engine_issue []))))
             /\ name i = "Tire Pressure Low") <-> tire = true).
  { split.
    - intros (i & Hin & Hn). apply in_detected in Hin.
      destruct Hin as [[_ ->]|[[_ ->]|[[_ ->]|[? _]]]];
        [discriminate..|assumption].
    - intros ->. exists tire_issue. split; [|reflexivity].
      apply in_detected. auto. }
  split; [|split].
  - rewrite in_detected. destruct tire; split; try discriminate; auto.
    intros [[_ ?]|[[_ ?]|[[_ ?]|[? _]]]]; discriminate.
  - rewrite Hname. destruct tire; split; auto; discriminate.
  - intros Hnone. rewrite (Habs Hnone) in *. split; [reflexivity|].
    intros i Hin Hn.
    assert (false = true); [|discriminate].
    apply Hname. eauto.
Qed.

(** C9 on the sample reading. *)
Lemma C9_tire_issue_iff_label_witness :
  is_query sample_reading = false /\
  exists doc ch,
    stored_snapshot
      (db_after_run sample_time sample_reading sample_evaluation empty_db)
      = Some doc /\
    Workflow.component_health doc = Some ch /\
    (In tire_issue (response_issues (report_of sample_evaluation))
     <-> tirePressure ch = "Low") /\
    ((exists i, In i (response_issues (report_of sample_evaluation))
                /\ name i = "Tire Pressure Low")
     <-> tirePressure ch = "Low") /\
    (sample_reading !! "tirePressure" = None ->
     tirePressure ch = "Normal" /\
     forall i, In i (response_issues (report_of sample_evaluation)) ->
               name i <> "Tire Pressure Low").
Proof.
  split; [reflexivity|].
  apply (C9_tire_issue_iff_label (fun _ => "") sample_time sample_reading []
           empty_db).
  - reflexivity.
  - vm_compute. reflexivity.
Defined.

(** ** The workflow collection under sequential execution *)


Lemma update_keeps_workflow now id st db :
  workflow_collection (snd (update_appointment_status now id st db)) =
  workflow_collection db.
Proof.
  unfold update_appointment_status.
  destruct (update_status id st now (appointment_collection db)) as [c n].
  destruct (Nat.eqb n 0); reflexivity.
Qed.

Section Sequences.

Variable py_repr : pyval -> string.

(** What one request does to the database: only a telemetry run whose
    evaluation returns changes it. *)
Lemma step_run now data db :
  step py_repr db (RunMaintenance now data) =
    match data with
    | d0 :: _ =>
        if is_query d0 then db
        else match evaluate (with_id d0) with
             | Ok ev => db_after_run now d0 ev db
             | Raise _ => db
             end
    | [] => db
    end.
Proof.
  unfold step. destruct data as [|d0 rest]; [reflexivity|].
  destruct (is_query d0) eqn:Hq.
  - unfold run_maintenance. rewrite Hq.
    destruct (py_lower _); reflexivity.
  - rewrite run_maintenance_eval by assumption.
    destruct (evaluate (with_id d0)); reflexivity.
Qed.


Lemma step_history op db :
  stored_history (step py_repr db op) =
    (stored_history db ++ omap entry_of [op])%list.
Proof.
  destruct op as [now data|now id st].
  - rewrite step_run. simpl. destruct data as [|d0 rest].
    + simpl. by rewrite app_nil_r.
    + destruct (is_query d0); [by rewrite app_nil_r|].
      destruct (evaluate (with_id d0)) as [ev|e]; [|by rewrite app_nil_r].
      unfold stored_history at 1. rewrite stored_snapshot_after_run.
      reflexivity.
  - simpl. rewrite app_nil_r.
    unfold stored_history, stored_snapshot, step.
    rewrite update_keeps_workflow. reflexivity.
Qed.

Lemma execute_app ops1 ops2 db :
  execute py_repr (ops1 ++ ops2) db =
    execute py_repr ops2 (execute py_repr ops1 db).
Proof. apply fold_left_app. Qed.


Lemma execute_history ops db :
  stored_history (execute py_repr ops db) =
    (stored_history db ++ omap entry_of ops)%list.
Proof.
  revert db. induction ops as [|op ops IH]; intros db.
  - simpl. by rewrite app_nil_r.
  - change (execute py_repr (op :: ops) db)
      with (execute py_repr ops (step py_repr db op)).
    rewrite IH, step_history.
    change (op :: ops) with ([op] ++ ops)%list.
    rewrite omap_app, app_assoc. reflexivity.
Qed.

End Sequences.


(** Two telemetry evaluations in a row append two entries, in call
    order. *)
Corollary two_runs_append_two_entries
    (py_repr : pyval -> string) (now1 now2 : datetime) (r1 r2 : Telemetry)
    (ev1 ev2 : Evaluation) (db : DB) :
  is_query r1 = false -> evaluate (with_id r1) = Ok ev1 ->
  is_query r2 = false -> evaluate (with_id r2) = Ok ev2 ->
  stored_history
    (execute py_repr [RunMaintenance now1 [r1]; RunMaintenance now2 [r2]] db) =
    (stored_history db ++ [new_entry now1 r1 ev1; new_entry now2 r2 ev2])%list.
Proof.
  intros Hq1 He1 Hq2 He2. rewrite execute_history. simpl.
  rewrite Hq1, He1, Hq2, He2. reflexivity.
Qed.


(** ** The appointment collection *)



Lemma find_after_insert (svc d t : string) (now : datetime)
    (appts : list Appointment.Doc) :
  exists a,
    find_appointment FIXED_VEHICLE_ID d t "Pending"
      (insert_appointment FIXED_VEHICLE_ID svc d t "Pending" now appts) = Some a.
Proof.
  unfold find_appointment, insert_appointment.
  generalize (fresh_id appts). intros id.
  induction appts as [|a appts IH]; simpl.
  - unfold appointment_matches. simpl. rewrite !String.eqb_refl. simpl. eauto.
  - destruct (appointment_matches FIXED_VEHICLE_ID d t "Pending" a); eauto.
Qed.

Lemma pending_after_insert (svc d t : string) (now : datetime)
    (appts : list Appointment.Doc) :
  length (List.filter is_pending
            (insert_appointment FIXED_VEHICLE_ID svc d t "Pending" now appts)) =
  S (length (List.filter is_pending appts)).
Proof.
  unfold insert_appointment. rewrite List.filter_app, length_app. simpl.
  lia.
Qed.



(** ** At most one Pending appointment *)

Lemma standard_find_none (appts : list Appointment.Doc) :
  Forall standard_slot appts ->
  find_appointment FIXED_VEHICLE_ID "Tomorrow" "10:00 AM" "Pending" appts
    = None ->
  length (List.filter is_pending appts) = 0%nat.
Proof.
  unfold find_appointment.
  induction 1 as [|a appts (Hv & Hd & Ht & _) _ IH]; simpl; [reflexivity|].
  unfold appointment_matches, is_pending. rewrite Hv, Hd, Ht. simpl.
  destruct (String.eqb (Appointment.status a) "Pending"); [discriminate|].
  exact IH.
Qed.

Lemma appointments_after_standard now issues appts :
  Forall standard_slot appts ->
  Forall standard_slot (appointments_after now issues appts).
Proof.
  intros H. unfold appointments_after.
  destruct issues; [assumption|].
  destruct (find_appointment _ _ _ _ _); [assumption|].
  unfold insert_appointment. apply Forall_app. split; [assumption|].
  constructor; [|constructor]. repeat split.
Qed.

Lemma appointments_after_pending now issues appts :
  Forall standard_slot appts ->
  (length (List.filter is_pending appts) <= 1)%nat ->
  (length (List.filter is_pending (appointments_after now issues appts)) <= 1)%nat.
Proof.
  intros Hs Hc. unfold appointments_after.
  destruct issues; [assumption|].
  destruct (find_appointment _ _ _ _ _) eqn:Hf; [assumption|].
  rewrite pending_after_insert, (standard_find_none _ Hs Hf). lia.
Qed.

Lemma update_status_standard id st now appts :
  Forall standard_slot appts ->
  Forall standard_slot (fst (update_status id st now appts)).
Proof.
  induction 1 as [|a appts Ha Hs IH]; simpl; [constructor|].
  destruct (Nat.eqb (Appointment._id a) id); simpl.
  - constructor; [exact Ha | exact Hs].
  - destruct (update_status id st now appts) as [c n]. simpl in *.
    constructor; assumption.
Qed.

Lemma update_status_pending id st now appts :
  String.eqb st "Pending" = false ->
  (length (List.filter is_pending (fst (update_status id st now appts)))
   <= length (List.filter is_pending appts))%nat.
Proof.
  intros Hst. induction appts as [|a appts IH]; simpl; [lia|].
  destruct (Nat.eqb (Appointment._id a) id); simpl.
  - unfold is_pending at 1. simpl. rewrite Hst, andb_false_r.
    destruct (is_pending a); simpl; lia.
  - destruct (update_status id st now appts) as [c n]. simpl in *.
    destruct (is_pending a); simpl; lia.
Qed.

Lemma update_appointments now id st db :
  appointment_collection (snd (update_appointment_status now id st db)) =
  fst (update_status id st now (appointment_collection db)).
Proof.
  unfold update_appointment_status.
  destruct (update_status id st now (appointment_collection db)) as [c n].
  destruct (Nat.eqb n 0); reflexivity.
Qed.

Lemma step_appointments py_repr op db :
  Forall standard_slot (appointment_collection db) ->
  Forall standard_slot (appointment_collection (step py_repr db op)) /\
  (reopens op = false ->
   (pending_count db <= 1)%nat ->
   (pending_count (step py_repr db op) <= 1)%nat).
Proof.
  intros Hs. destruct op as [now data|now id st].
  - rewrite step_run. destruct data as [|d0 rest]; [auto|].
    destruct (is_query d0); [auto|].
    destruct (evaluate (with_id d0)) as [ev|e]; [|auto].
    unfold pending_count. simpl. split.
    + apply appointments_after_standard, Hs.
    + intros _. apply appointments_after_pending, Hs.
  - unfold pending_count, step. rewrite update_appointments. split.
    + apply update_status_standard, Hs.
    + simpl. intros Hst Hc.
      pose proof (update_status_pending id st now
                    (appointment_collection db) Hst). lia.
Qed.

Lemma execute_appointments py_repr ops db :
  Forall standard_slot (appointment_collection db) ->
  Forall standard_slot (appointment_collection (execute py_repr ops db)) /\
  (Forall (fun op => reopens op = false) ops ->
   (pending_count db <= 1)%nat ->
   (pending_count (execute py_repr ops db) <= 1)%nat).
Proof.
  revert db. induction ops as [|op ops IH]; intros db Hs; [auto|].
  change (execute py_repr (op :: ops) db)
    with (execute py_repr ops (step py_repr db op)).
  destruct (step_appointments py_repr op db Hs) as [Hs' Hp'].
  destruct (IH _ Hs') as [Hs'' Hp'']. split; [assumption|].
  intros Hall Hc. inversion Hall; subst. auto.
Qed.

(** C10 (amended). Every appointment in the store is one
    [run_maintenance] booked for the fixed vehicle, date "Tomorrow", time
    "10:00 AM", whatever the clock says; and as long as no status update
    sets an appointment to Pending, at most one Pending appointment exists
    after every request of a sequential execution. *)
Theorem C10_one_pending_unless_reopened
    (py_repr : pyval -> string) (ops : list Op) :
  Forall standard_slot (appointment_collection (execute py_repr ops empty_db)) /\
  (Forall (fun op => reopens op = false) ops ->
   (pending_count (execute py_repr ops empty_db) <= 1)%nat).
Proof.
  destruct (execute_appointments py_repr ops empty_db) as [Hs Hp].
  { constructor. }
  split; [assumption|]. intros Hall. apply Hp; [assumption|].
  vm_compute. lia.
Qed.

(** C10, as stated, fails once a status update re-opens an appointment:
    after the four sequential requests of [reopening_trace] the fixed
    vehicle has two Pending appointments, both for "Tomorrow",
    "10:00 AM". *)
Lemma C10_counterexample :
  pending_count (execute (fun _ => "") reopening_trace empty_db) = 2%nat /\
  map (fun a => (Appointment._id a, Appointment.date a, Appointment.time a,
                 Appointment.status a))
      (appointment_collection (execute (fun _ => "") reopening_trace empty_db))
    = [ (1%nat, "Tomorrow", "10:00 AM", "Pending");
        (2%nat, "Tomorrow", "10:00 AM", "Pending") ] /\
  ~ (pending_count (execute (fun _ => "") reopening_trace empty_db) <= 1)%nat.
Proof.
  split; [vm_compute; reflexivity|]. split; [vm_compute; reflexivity|].
  vm_compute. lia.
Qed.

(** C10 on a trace whose status update does not re-open. *)
Lemma C10_one_pending_unless_reopened_witness :
  Forall (fun op => reopens op = false) in_progress_trace /\
  (pending_count (execute (fun _ => "") in_progress_trace empty_db) <= 1)%nat.
Proof.
  assert (Hall : Forall (fun op => reopens op = false) in_progress_trace)
    by (repeat constructor).
  split; [exact Hall|].
  exact (proj2 (C10_one_pending_unless_reopened (fun _ => "") in_progress_trace)
           Hall).
Defined.

(** ** The natural-language branch *)

Lemma is_query_intro (d0 : Telemetry) (v : pyval) :
  d0 !! "user_message" = Some v ->
  Forall (fun k => d0 !! k = None)
    ["engineTemp"; "oilPressure"; "batteryVoltage"; "tirePressure"] ->
  is_query d0 = true.
Proof.
  intros Hm Hk. rewrite !Forall_cons in Hk.
  destruct Hk as (H1 & H2 & H3 & H4 & _).
  unfold is_query, has_key. simpl. rewrite Hm, H1, H2, H3, H4. reflexivity.
Qed.

(** C6. A request with a [user_message] and none of the four telemetry
    fields is answered from the stored snapshot and changes nothing: with
    no snapshot the reply is the canned healthy message whatever the
    question; otherwise the lower-cased question is matched in the order
    "health", then "issue"/"problem", then "schedule"/"maintenance", then
    "engine temperature"/"engine temp", else the help message.  With a
    stored score of 86, "What's my vehicle health?" is answered "Your
    vehicle health score is 86%". *)
Theorem C6_query_classification
    (py_repr : pyval -> string) (now : datetime) (d0 : Telemetry)
    (rest : list Telemetry) (db : DB) (msg : string) :
  d0 !! "user_message" = Some (VStr msg) ->
  Forall (fun k => d0 !! k = None)
    ["engineTemp"; "oilPressure"; "batteryVoltage"; "tirePressure"] ->
  let q := PyStr.lower msg in
  let asks (word : string) := PyStr.contains word q in
  exists reply,
    run_maintenance py_repr now (d0 :: rest) db = (Ok (QueryReply reply), db) /\
    (stored_snapshot db = None ->
     reply = "Your vehicle is healthy. No issues detected.") /\
    (forall doc, stored_snapshot db = Some doc ->
       (asks "health" = true ->
        reply = "Your vehicle health score is "
                  +:+ PyStr.of_int (default 100 (Workflow.overall_health_score doc))
                  +:+ "%") /\
       (asks "health" = false ->
        asks "issue" || asks "problem" = true ->
        reply = match default [] (Workflow.issues doc) with
                | [] => "There are no current issues."
                | issues =>
                    "Current issues: " +:+ PyStr.join ", " (map name issues)
                end) /\
       (asks "health" = false ->
        asks "issue" || asks "problem" = false ->
        asks "schedule" || asks "maintenance" = true ->
        reply = "Your maintenance is scheduled for "
                  +:+ default "Not scheduled" (Workflow.predicted_schedule doc)
                  +:+ ".") /\
       (asks "health" = false ->
        asks "issue" || asks "problem" = false ->
        asks "schedule" || asks "maintenance" = false ->
        asks "engine temperature" || asks "engine temp" = true ->
        reply = "Your engine temperature is "
                  +:+ py_str py_repr
                        (default (VStr "Not available")
                           (default ∅ (Workflow.telemetry doc) !! "engineTemp"))
                  +:+ ".") /\
       (asks "health" = false ->
        asks "issue" || asks "problem" = false ->
        asks "schedule" || asks "maintenance" = false ->
        asks "engine temperature" || asks "engine temp" = false ->
        reply = "Ask me about health, issues or schedule.") /\
       (msg = "What's my vehicle health?" ->
        Workflow.overall_health_score doc = Some 86 ->
        reply = "Your vehicle health score is 86%")).
Proof.
  intros Hm Hk q asks.
  exists (answer_query py_repr (stored_snapshot db) q).
  split.
  { unfold run_maintenance. rewrite (is_query_intro _ _ Hm Hk), Hm.
    reflexivity. }
  split.
  { intros ->. reflexivity. }
  intros doc ->. unfold answer_query. fold (asks "health") (asks "issue")
    (asks "problem") (asks "schedule") (asks "maintenance")
    (asks "engine temperature") (asks "engine temp").
  repeat split.
  - intros ->. reflexivity.
  - intros -> ->. reflexivity.
  - intros -> -> ->. reflexivity.
  - intros -> -> -> ->. reflexivity.
  - intros -> -> -> ->. reflexivity.
  - intros Hmsg Hscore.
    assert (Hh : asks "health" = true) by (subst; reflexivity).
    rewrite Hh, Hscore. reflexivity.
Qed.

(** C6 on the example of the specification: stored score 86. *)
Lemma C6_query_classification_witness :
  (health_question !! "user_message" = Some (VStr "What's my vehicle health?") /\
   Forall (fun k => health_question !! k = None)
     ["engineTemp"; "oilPressure"; "batteryVoltage"; "tirePressure"]) /\
  run_maintenance (fun _ => "") later_time [health_question] sample_db =
    (Ok (QueryReply "Your vehicle health score is 86%"), sample_db).
Proof.
  assert (Hm : health_question !! "user_message"
               = Some (VStr "What's my vehicle health?")) by reflexivity.
  assert (Hk : Forall (fun k => health_question !! k = None)
                 ["engineTemp"; "oilPressure"; "batteryVoltage"; "tirePressure"])
    by (repeat constructor).
  split; [split; assumption|].
  destruct (C6_query_classification (fun _ => "") later_time health_question []
              sample_db "What's my vehicle health?" Hm Hk)
    as (reply & Hrun & _ & Hdoc).
  rewrite Hrun.
  destruct (Hdoc _ (stored_snapshot_after_run _ _ _ _))
    as (_ & _ & _ & _ & _ & Hex).
  rewrite (Hex eq_refl eq_refl). reflexivity.
Defined.

(** ** The dashboard *)

(** C7. [GET /dashboard/data] never raises.  With no snapshot for the
    fixed vehicle it returns health_score 100 with empty telemetry,
    component_health, predicted_issues and anomalies; when the read of the
    workflow collection raises, the error is caught and the same safe
    payload is returned. *)
Theorem C7_dashboard_defaults
    (find_one : string -> res (option Workflow.Doc)) :
  (exists payload, get_dashboard_data find_one = Ok payload) /\
  (find_one FIXED_VEHICLE_ID = Ok None ->
   get_dashboard_data find_one = Ok (empty_dashboard "No data available")) /\
  (forall db, stored_snapshot db = None ->
     get_dashboard_data (find_one_in db)
       = Ok (empty_dashboard "No data available")) /\
  (forall e, find_one FIXED_VEHICLE_ID = Raise e ->
     get_dashboard_data find_one = Ok (empty_dashboard "Error fetching data")) /\
  (forall message,
     Dashboard.health_score (empty_dashboard message) = 100 /\
     Dashboard.telemetry (empty_dashboard message) = ∅ /\
     Dashboard.component_health (empty_dashboard message) = None /\
     Dashboard.predicted_issues (empty_dashboard message) = [] /\
     Dashboard.anomalies (empty_dashboard message) = []).
Proof.
  split; [|split; [|split; [|split]]].
  - unfold get_dashboard_data. destruct (dashboard_body find_one); eauto.
  - intros H. unfold get_dashboard_data, dashboard_body. rewrite H.
    reflexivity.
  - intros db H. unfold get_dashboard_data, dashboard_body, find_one_in.
    unfold stored_snapshot in H. rewrite H. reflexivity.
  - intros e H. unfold get_dashboard_data, dashboard_body. rewrite H.
    reflexivity.
  - intros message. repeat split.
Qed.

(** C7 on the empty store and on a driver that raises. *)
Lemma C7_dashboard_defaults_witness :
  (find_one_in empty_db FIXED_VEHICLE_ID = Ok None /\
   stored_snapshot empty_db = None /\
   failing_find_one FIXED_VEHICLE_ID = Raise PyMongoError) /\
  get_dashboard_data (find_one_in empty_db)
    = Ok (empty_dashboard "No data available") /\
  get_dashboard_data failing_find_one
    = Ok (empty_dashboard "Error fetching data").
Proof.
  split; [repeat split|]. split.
  - exact (proj1 (proj2 (C7_dashboard_defaults (find_one_in empty_db))) eq_refl).
  - exact (proj1 (proj2 (proj2 (proj2
             (C7_dashboard_defaults failing_find_one))))
             PyMongoError eq_refl).
Defined.

(** ** The analytics *)

Lemma length_last_n {A} (n : nat) (l : list A) :
  (length (last_n n l) <= n)%nat.
Proof. unfold last_n. rewrite length_drop. lia. Qed.

Lemma length_omap_le {A B} (f : A -> option B) (l : list A) :
  (length (omap f l) <= length l)%nat.
Proof.
  induction l as [|x l IH]; csimpl; [lia|].
  destruct (f x); csimpl; lia.
Qed.

Lemma length_filter_le {A} (p : A -> bool) (l : list A) :
  (length (List.filter p l) <= length l)%nat.
Proof.
  induction l as [|x l IH]; simpl; [lia|].
  destruct (p x); simpl; lia.
Qed.

Lemma timeline_of_omap (window : list HistoryEntry.t) :
  timeline_of window = omap timeline_entry window.
Proof.
  induction window as [|h window IH]; simpl; [reflexivity|].
  unfold timeline_entry at 1.
  destruct (HistoryEntry.issues h); simpl; rewrite IH; reflexivity.
Qed.

Lemma series_values_ok (key : string) (window : list HistoryEntry.t) :
  forallb (convertible key) window = true ->
  exists vals,
    series_values key window = Ok vals /\
    Forall2 (point_of key)
      (List.filter (fun h => has_key key (HistoryEntry.telemetry h)) window)
      vals.
Proof.
  induction window as [|h window IH]; simpl.
  - intros _. exists []. split; [reflexivity | constructor].
  - intros H. apply andb_prop in H as [Hh Hw].
    destruct (IH Hw) as (vals & Hvals & Hall).
    unfold convertible in Hh. unfold has_key.
    destruct (HistoryEntry.telemetry h !! key) as [v|] eqn:Hv.
    + destruct (series_value v) as [x|e] eqn:Hx; [|discriminate].
      exists ((strftime_HM (HistoryEntry.timestamp h), x) :: vals).
      unfold mbind, res_bind. rewrite Hvals. split; [reflexivity|].
      constructor; [|exact Hall].
      split; [reflexivity|]. exists v. split; assumption.
    + exists vals. split; assumption.
Qed.

Lemma build_series_ok (history : list HistoryEntry.t) (key : string)
    (range : Z * Z) :
  window_convertible history = true ->
  In key sensor_keys ->
  exists s,
    build_series history key range = Ok s /\
    series_of history key range s /\
    (length (values s) <= 24)%nat.
Proof.
  intros Hw Hk.
  assert (Hkey : forallb (convertible key) (last_n 24 history) = true).
  { apply forallb_forall. intros h Hh.
    unfold window_convertible in Hw.
    rewrite forallb_forall in Hw. specialize (Hw h Hh).
    rewrite forallb_forall in Hw. apply Hw, Hk. }
  destruct (series_values_ok key _ Hkey) as (vals & Hvals & Hall).
  unfold build_series, mbind, res_bind. rewrite Hvals.
  eexists. split; [reflexivity|]. split.
  - split; [reflexivity | exact Hall].
  - simpl. rewrite <- (Forall2_length _ _ _ Hall).
    pose proof (length_filter_le
                  (fun h => has_key key (HistoryEntry.telemetry h))
                  (last_n 24 history)).
    pose proof (length_last_n 24 history). lia.
Qed.

(** C8 (amended). When a snapshot is stored and the sensor values of its
    last 24 history entries convert to floats, [GET /analytics/full] returns, for
    each of the four sensors, the series with one point per entry of the
    last 24 history entries whose telemetry has the sensor's key, with its
    fixed safe range; one violation per current issue; and a timeline of at
    most 6 entries, one for each of the last 6 history entries that had
    issues: the history is cut to its last 6 entries first. *)
Theorem C8_full_analytics (db : DB) (doc : Workflow.Doc) :
  stored_snapshot db = Some doc ->
  let history := default [] (Workflow.history doc) in
  window_convertible history = true ->
  exists engine oil bat tire,
    get_full_analytics db =
      Ok {| sensors := [ ("engine_temperature", engine);
                         ("oil_pressure", oil);
                         ("battery_voltage", bat);
                         ("tire_pressure", tire) ];
            violations := map violation_of (default [] (Workflow.issues doc));
            timeline := omap timeline_entry (last_n 6 history) |} /\
    series_of history "engineTemp" (70, 95) engine /\
    series_of history "oilPressure" (25, 65) oil /\
    series_of history "batteryVoltage" (12, 14) bat /\
    series_of history "tirePressure" (32, 36) tire /\
    Forall (fun s => (length (values s) <= 24)%nat) [engine; oil; bat; tire] /\
    (length (omap timeline_entry (last_n 6 history)) <= 6)%nat.
Proof.
  intros Hdoc history Hw.
  destruct (build_series_ok history "engineTemp" (70, 95) Hw)
    as (engine & He & Hes & Hel); [simpl; auto|].
  destruct (build_series_ok history "oilPressure" (25, 65) Hw)
    as (oil & Ho & Hos & Hol); [simpl; auto|].
  destruct (build_series_ok history "batteryVoltage" (12, 14) Hw)
    as (bat & Hb & Hbs & Hbl); [simpl; auto|].
  destruct (build_series_ok history "tirePressure" (32, 36) Hw)
    as (tire & Ht & Hts & Htl); [simpl; auto 6|].
  exists engine, oil, bat, tire.
  split.
  { unfold get_full_analytics. unfold stored_snapshot in Hdoc. rewrite Hdoc.
    fold history. unfold mbind, res_bind. rewrite He, Ho, Hb, Ht.
    rewrite timeline_of_omap. reflexivity. }
  split; [exact Hes|]. split; [exact Hos|]. split; [exact Hbs|].
  split; [exact Hts|]. split.
  - do 4 (constructor; [assumption|]). constructor.
  - pose proof (length_omap_le timeline_entry (last_n 6 history)).
    pose proof (length_last_n 6 history). lia.
Qed.

(** C8 on the store that holds the sample run. *)
Lemma C8_full_analytics_witness :
  (stored_snapshot sample_db = Some sample_snapshot /\
   window_convertible (default [] (Workflow.history sample_snapshot)) = true) /\
  exists engine oil bat tire,
    get_full_analytics sample_db =
      Ok {| sensors := [ ("engine_temperature", engine);
                         ("oil_pressure", oil);
                         ("battery_voltage", bat);
                         ("tire_pressure", tire) ];
            violations := map violation_of [engine_issue; oil_issue];
            timeline := omap timeline_entry (last_n 6 [entry_with_issues]) |} /\
    series_of [entry_with_issues] "engineTemp" (70, 95) engine /\
    series_of [entry_with_issues] "oilPressure" (25, 65) oil /\
    series_of [entry_with_issues] "batteryVoltage" (12, 14) bat /\
    series_of [entry_with_issues] "tirePressure" (32, 36) tire /\
    Forall (fun s => (length (values s) <= 24)%nat) [engine; oil; bat; tire] /\
    (length (omap timeline_entry (last_n 6 [entry_with_issues])) <= 6)%nat.
Proof.
  assert (Hdoc : stored_snapshot sample_db = Some sample_snapshot)
    by (vm_compute; reflexivity).
  assert (Hw : window_convertible
                 (default [] (Workflow.history sample_snapshot)) = true)
    by (vm_compute; reflexivity).
  split; [split; assumption|].
  exact (C8_full_analytics sample_db sample_snapshot Hdoc Hw).
Defined.

(** On the sample the series of the engine temperature is the single point
    (09:30, 105.0) and the timeline the single entry of that run. *)
Example analytics_of_sample :
  exists a,
    get_full_analytics sample_db = Ok a /\
    map fst (sensors a) =
      ["engine_temperature"; "oil_pressure"; "battery_voltage"; "tire_pressure"] /\
    map (fun s => values (snd s)) (sensors a) =
      [ [("09:30", PyFloat.of_Z 105)]; [("09:30", PyFloat.of_Z 15)];
        [("09:30", PyFloat.lit 126 10)]; [("09:30", PyFloat.of_Z 32)] ] /\
    timeline a =
      [ {| tl_time := "Day 17 — 09:30";
           tl_stage := "Engine Temperature High";
           tl_description := "Check cooling system" |} ].
Proof. eexists. split; [vm_compute; reflexivity|]. repeat split. Qed.

(** The timeline is cut to the last 6 history entries before the entries
    without issues are dropped: an entry with issues followed by six
    without leaves it empty. *)
Example timeline_window_comes_first :
  timeline_of
    (last_n 6 (entry_with_issues :: replicate 6 entry_without_issues)) = [] /\
  timeline_of (last_n 6 (replicate 5 entry_without_issues
                           ++ [entry_with_issues]))
    = [ {| tl_time := "Day 17 — 09:30";
           tl_stage := "Engine Temperature High";
           tl_description := "Check cooling system" |} ].
Proof. split; vm_compute; reflexivity. Qed.

(** The analytics handler has no [try]: a stored sensor value that
    [float(str(...))] rejects, such as the boolean the rules accept as a
    number, makes it raise. *)
Example analytics_raises_on_boolean_sensor :
  exists db',
    run_maintenance (fun _ => "") sample_time [boolean_reading] empty_db
      = (Ok (MaintenanceReport [oil_issue] [oil_issue] 93
               "Oil Pressure Low — high"
               "Oil Pressure Low (high): Check oil level. "
               "Tomorrow 10 AM"
               "Immediate maintenance recommended due to detected issues."),
         db') /\
    get_full_analytics db' = Raise ValueError.
Proof. eexists. split; vm_compute; reflexivity. Qed.

(** C8, as stated, fails after [quiet_trace]: the history has one entry
    with issues followed by six without, and the timeline returned is
    empty, neither of 6 entries nor the entry the history entries that had
    issues would give. *)
Lemma C8_counterexample :
  map (fun h => length (HistoryEntry.issues h)) (stored_history quiet_db)
    = [2; 0; 0; 0; 0; 0; 0]%nat /\
  (exists a, get_full_analytics quiet_db = Ok a /\ timeline a = []) /\
  spec_timeline (stored_history quiet_db)
    = [ {| tl_time := "Day 17 — 09:30";
           tl_stage := "Engine Temperature High";
           tl_description := "Check cooling system" |} ] /\
  ~ (exists a, get_full_analytics quiet_db = Ok a /\
               (length (timeline a) = 6%nat \/
                timeline a = spec_timeline (stored_history quiet_db))).
Proof.
  assert (H : exists a, get_full_analytics quiet_db = Ok a /\ timeline a = []).
  { eexists. split; [vm_compute; reflexivity | reflexivity]. }
  split; [vm_compute; reflexivity|]. split; [exact H|].
  split; [vm_compute; reflexivity|].
  destruct H as (a & Ha & Ht). intros (a' & Ha' & Hcase).
  rewrite Ha in Ha'. injection Ha' as <-. rewrite Ht in Hcase.
  destruct Hcase as [Hlen | Hspec]; [discriminate Hlen|].
  vm_compute in Hspec. discriminate Hspec.
Qed.

(** * Further properties of the code *)

(** ** The brake score *)

(** X1. [calculate_brake_health] returns one of 75, 95, 80, 65, 40; the
    only error it raises is TypeError, and only for a string, a list or a
    dict; and on integer vibrations it never increases: more vibration
    never gives a higher score. *)
Theorem X1_brake_health_steps :
  (forall v z, calculate_brake_health v = Ok z -> In z brake_scores) /\
  (forall v e, calculate_brake_health v = Raise e ->
     e = TypeError /\
     match v with VStr _ | VList _ | VDict _ => True | _ => False end) /\
  (forall a b x y,
     a <= b ->
     calculate_brake_health (VInt a) = Ok x ->
     calculate_brake_health (VInt b) = Ok y -> y <= x).
Proof.
  split; [|split].
  - intros v z H. unfold brake_scores.
    destruct v; simpl in H; unfold mbind, res_bind in H; simpl in H;
      try discriminate;
      repeat match type of H with
        | context [if ?c then _ else _] => destruct c
        end;
      injection H as <-; simpl; auto 10.
  - intros v e H.
    destruct v; simpl in H; unfold mbind, res_bind in H; simpl in H;
      repeat match type of H with
        | context [if ?c then _ else _] => destruct c
        end;
      try discriminate; injection H as <-; auto.
  - intros a b x y Hab Hx Hy.
    simpl in Hx, Hy. unfold mbind, res_bind in Hx, Hy. simpl in Hx, Hy.
    destruct (Z.ltb_spec a 3), (Z.ltb_spec a 5), (Z.ltb_spec a 7),
             (Z.ltb_spec b 3), (Z.ltb_spec b 5), (Z.ltb_spec b 7);
      injection Hx as <-; injection Hy as <-; lia.
Qed.

(** X1 on vibrations 2 and 6: 95 and 65. *)
Lemma X1_brake_health_steps_witness :
  (2 <= 6 /\ calculate_brake_health (VInt 2) = Ok 95 /\
   calculate_brake_health (VInt 6) = Ok 65) /\ 65 <= 95.
Proof.
  split; [repeat split; discriminate|].
  exact (proj2 (proj2 X1_brake_health_steps) 2 6 95 65
           ltac:(discriminate) eq_refl eq_refl).
Defined.

(** ** The component health *)

(** X2. In every evaluation that returns, [engineHealth] is the int 0 or a
    float strictly above 0 (never negative, never NaN), and the tire label
    is "Low" or "Normal", so the tire contributes 70 or 100 to the overall
    score. *)
Theorem X2_component_health_ranges (telemetry : Telemetry) (ev : Evaluation) :
  evaluate telemetry = Ok ev ->
  (engineHealth (ev_component_health ev) = NInt 0 \/
   exists x, engineHealth (ev_component_health ev) = NFloat x /\
             PyFloat.gt_Z x 0 = true) /\
  (tirePressure (ev_component_health ev) = "Low" /\
   tire_contribution (tirePressure (ev_component_health ev)) = 70 \/
   tirePressure (ev_component_health ev) = "Normal" /\
   tire_contribution (tirePressure (ev_component_health ev)) = 100).
Proof.
  intros Hev. apply evaluate_ok in Hev as (t & _ & _ & Hch & _).
  unfold component_health_of in Hch. bind_inv Hch.
  injection Hch as <-. simpl. split.
  - unfold py_max0. destruct (PyFloat.gt_Z _ 0) eqn:Hgt; eauto.
  - match goal with |- context [if ?b then "Low" else "Normal"] => destruct b end;
      auto.
Qed.

(** X2 on the sample reading. *)
Lemma X2_component_health_ranges_witness :
  evaluate (with_id sample_reading) = Ok sample_evaluation /\
  (engineHealth (ev_component_health sample_evaluation) = NInt 0 \/
   exists x, engineHealth (ev_component_health sample_evaluation) = NFloat x /\
             PyFloat.gt_Z x 0 = true).
Proof.
  split; [exact sample_evaluates|].
  exact (proj1 (X2_component_health_ranges (with_id sample_reading)
                  sample_evaluation sample_evaluates)).
Defined.

(** ** The other threshold rules *)

(** The issues a telemetry run returns, by the four tests. *)
Lemma run_issues_by_rule (py_repr : pyval -> string) (now : datetime)
    (d0 : Telemetry) (rest : list Telemetry) (db db' : DB) (r : Response) :
  is_query d0 = false ->
  run_maintenance py_repr now (d0 :: rest) db = (Ok r, db') ->
  exists t oil bat tire,
    engine_temp_of d0 = Ok t /\
    py_lt_int (default (VInt 30) (d0 !! "oilPressure")) 20 = Ok oil /\
    py_lt_int (default (VFloat (PyFloat.lit 126 10)) (d0 !! "batteryVoltage")) 12
      = Ok bat /\
    py_lt_int (default (VInt 32) (d0 !! "tirePressure")) 30 = Ok tire /\
    response_issues r =
      append_if tire tire_issue
        (append_if bat battery_issue
           (append_if oil oil_issue
              (append_if (PyFloat.gt_Z t 100) engine_issue []))).
Proof.
  intros Hq Hrun.
  destruct (run_maintenance_report _ _ _ _ _ _ _ Hq Hrun) as (ev & Hev & -> & _).
  apply evaluate_ok in Hev as (t & Ht & Hiss & _).
  apply detect_issues_ok in Hiss as (oil & bat & tire & Ho & Hb & Hti & Hiss).
  rewrite engine_temp_with_id in Ht.
  rewrite with_id_lookup in Ho, Hb, Hti by discriminate.
  exists t, oil, bat, tire. simpl. auto.
Qed.

(** What [v < c] answers on an int and on a float. *)
Lemma py_lt_int_cases (v : pyval) (c : Z) (b : bool) :
  py_lt_int v c = Ok b ->
  (forall z, v = VInt z -> (b = true <-> z < c)) /\
  (forall f, v = VFloat f -> (b = true <-> PyFloat.lt_Z f c = true)).
Proof.
  intros H. split.
  - intros z ->. simpl in H. injection H as <-. apply Z.ltb_lt.
  - intros f ->. simpl in H. injection H as <-. reflexivity.
Qed.

(** X3. On the evaluation path "Oil Pressure Low" (severity high,
    confidence 0.85) is returned exactly when [oilPressure] is below 20:
    for an int [z] when [z < 20], for a float when it compares below 20,
    and never when the field is absent (the default is 30). *)
Theorem X3_oil_pressure_rule
    (py_repr : pyval -> string) (now : datetime) (d0 : Telemetry)
    (rest : list Telemetry) (db db' : DB) (r : Response) :
  is_query d0 = false ->
  run_maintenance py_repr now (d0 :: rest) db = (Ok r, db') ->
  (d0 !! "oilPressure" = None -> ~ In oil_issue (response_issues r)) /\
  (forall z, d0 !! "oilPressure" = Some (VInt z) ->
     (In oil_issue (response_issues r) <-> z < 20)) /\
  (forall f, d0 !! "oilPressure" = Some (VFloat f) ->
     (In oil_issue (response_issues r) <-> PyFloat.lt_Z f 20 = true)) /\
  (forall i, In i (response_issues r) -> name i = "Oil Pressure Low" ->
     i = {| name := "Oil Pressure Low"; severity := "high";
            confidence := PyFloat.lit 85 100;
            recommended_action := "Check oil level" |}).
Proof.
  intros Hq Hrun.
  destruct (run_issues_by_rule _ _ _ _ _ _ _ Hq Hrun)
    as (t & oil & bat & tire & _ & Ho & _ & _ & ->).
  assert (Hin : In oil_issue
                  (append_if tire tire_issue
                     (append_if bat battery_issue
                        (append_if oil oil_issue
                           (append_if (PyFloat.gt_Z t 100) engine_issue []))))
                <-> oil = true).
  { rewrite in_detected. split; [|auto].
    intros [[_ ?]|[[? _]|[[_ ?]|[_ ?]]]]; [discriminate|assumption|discriminate..]. }
  split; [|split; [|split]].
  - intros Hnone Habs. apply Hin in Habs.
    rewrite Hnone in Ho. vm_compute in Ho. congruence.
  - intros z Hz. rewrite Hin. rewrite Hz in Ho.
    exact (proj1 (py_lt_int_cases _ _ _ Ho) z eq_refl).
  - intros f Hf. rewrite Hin. rewrite Hf in Ho.
    exact (proj2 (py_lt_int_cases _ _ _ Ho) f eq_refl).
  - intros i Hi Hn. apply in_detected in Hi.
    destruct Hi as [[_ ->]|[[_ ->]|[[_ ->]|[_ ->]]]];
      first [reflexivity | discriminate Hn].
Qed.

(** X3 on the sample reading, whose oil pressure is 15. *)
Lemma X3_oil_pressure_rule_witness :
  (is_query sample_reading = false /\
   sample_reading !! "oilPressure" = Some (VInt 15) /\ 15 < 20) /\
  In oil_issue (response_issues (report_of sample_evaluation)).
Proof.
  split; [repeat split|].
  apply (proj1 (proj2 (X3_oil_pressure_rule (fun _ => "") sample_time
                         sample_reading [] empty_db sample_db
                         (report_of sample_evaluation) eq_refl
                         ltac:(vm_compute; reflexivity)))
           15 eq_refl).
  reflexivity.
Defined.

(** X4. On the evaluation path "Battery Voltage Low" (severity medium,
    confidence 0.75) is returned exactly when [batteryVoltage] is below
    12, and never when the field is absent (the default is 12.6). *)
Theorem X4_battery_voltage_rule
    (py_repr : pyval -> string) (now : datetime) (d0 : Telemetry)
    (rest : list Telemetry) (db db' : DB) (r : Response) :
  is_query d0 = false ->
  run_maintenance py_repr now (d0 :: rest) db = (Ok r, db') ->
  (d0 !! "batteryVoltage" = None -> ~ In battery_issue (response_issues r)) /\
  (forall z, d0 !! "batteryVoltage" = Some (VInt z) ->
     (In battery_issue (response_issues r) <-> z < 12)) /\
  (forall f, d0 !! "batteryVoltage" = Some (VFloat f) ->
     (In battery_issue (response_issues r) <-> PyFloat.lt_Z f 12 = true)) /\
  (forall i, In i (response_issues r) -> name i = "Battery Voltage Low" ->
     i = {| name := "Battery Voltage Low"; severity := "medium";
            confidence := PyFloat.lit 75 100;
            recommended_action := "Recharge or replace battery" |}).
Proof.
  intros Hq Hrun.
  destruct (run_issues_by_rule _ _ _ _ _ _ _ Hq Hrun)
    as (t & oil & bat & tire & _ & _ & Hb & _ & ->).
  assert (Hin : In battery_issue
                  (append_if tire tire_issue
                     (append_if bat battery_issue
                        (append_if oil oil_issue
                           (append_if (PyFloat.gt_Z t 100) engine_issue []))))
                <-> bat = true).
  { rewrite in_detected. split; [|auto].
    intros [[_ ?]|[[_ ?]|[[? _]|[_ ?]]]];
      [discriminate..|assumption|discriminate]. }
  split; [|split; [|split]].
  - intros Hnone Habs. apply Hin in Habs.
    rewrite Hnone in Hb. vm_compute in Hb. congruence.
  - intros z Hz. rewrite Hin. rewrite Hz in Hb.
    exact (proj1 (py_lt_int_cases _ _ _ Hb) z eq_refl).
  - intros f Hf. rewrite Hin. rewrite Hf in Hb.
    exact (proj2 (py_lt_int_cases _ _ _ Hb) f eq_refl).
  - intros i Hi Hn. apply in_detected in Hi.
    destruct Hi as [[_ ->]|[[_ ->]|[[_ ->]|[_ ->]]]];
      first [reflexivity | discriminate Hn].
Qed.

(** X4 on the sample reading, whose battery is at 12.6 V. *)
Lemma X4_battery_voltage_rule_witness :
  (is_query sample_reading = false /\
   sample_reading !! "batteryVoltage" = Some (VFloat (PyFloat.lit 126 10))) /\
  (In battery_issue (response_issues (report_of sample_evaluation))
   <-> PyFloat.lt_Z (PyFloat.lit 126 10) 12 = true).
Proof.
  split; [repeat split|].
  exact (proj1 (proj2 (proj2 (X4_battery_voltage_rule (fun _ => "") sample_time
                         sample_reading [] empty_db sample_db
                         (report_of sample_evaluation) eq_refl
                         ltac:(vm_compute; reflexivity))))
           (PyFloat.lit 126 10) eq_refl).
Defined.

(** X5. On the evaluation path "Tire Pressure Low" (severity medium,
    confidence 0.7) is returned exactly when [tirePressure] is below 30,
    and never when the field is absent (the default is 32). *)
Theorem X5_tire_pressure_rule
    (py_repr : pyval -> string) (now : datetime) (d0 : Telemetry)
    (rest : list Telemetry) (db db' : DB) (r : Response) :
  is_query d0 = false ->
  run_maintenance py_repr now (d0 :: rest) db = (Ok r, db') ->
  (d0 !! "tirePressure" = None -> ~ In tire_issue (response_issues r)) /\
  (forall z, d0 !! "tirePressure" = Some (VInt z) ->
     (In tire_issue (response_issues r) <-> z < 30)) /\
  (forall f, d0 !! "tirePressure" = Some (VFloat f) ->
     (In tire_issue (response_issues r) <-> PyFloat.lt_Z f 30 = true)) /\
  (forall i, In i (response_issues r) -> name i = "Tire Pressure Low" ->
     i = {| name := "Tire Pressure Low"; severity := "medium";
            confidence := PyFloat.lit 7 10;
            recommended_action := "Inflate tires" |}).
Proof.
  intros Hq Hrun.
  destruct (run_issues_by_rule _ _ _ _ _ _ _ Hq Hrun)
    as (t & oil & bat & tire & _ & _ & _ & Hti & ->).
  assert (Hin : In tire_issue
                  (append_if tire tire_issue
                     (append_if bat battery_issue
                        (append_if oil oil_issue
                           (append_if (PyFloat.gt_Z t 100) engine_issue []))))
                <-> tire = true).
  { rewrite in_detected. split; [|auto 6].
    intros [[_ ?]|[[_ ?]|[[_ ?]|[? _]]]]; [discriminate..|assumption]. }
  split; [|split; [|split]].
  - intros Hnone Habs. apply Hin in Habs.
    rewrite Hnone in Hti. vm_compute in Hti. congruence.
  - intros z Hz. rewrite Hin. rewrite Hz in Hti.
    exact (proj1 (py_lt_int_cases _ _ _ Hti) z eq_refl).
  - intros f Hf. rewrite Hin. rewrite Hf in Hti.
    exact (proj2 (py_lt_int_cases _ _ _ Hti) f eq_refl).
  - intros i Hi Hn. apply in_detected in Hi.
    destruct Hi as [[_ ->]|[[_ ->]|[[_ ->]|[_ ->]]]];
      first [reflexivity | discriminate Hn].
Qed.

(** X5 on the sample reading, whose tires are at 32. *)
Lemma X5_tire_pressure_rule_witness :
  (is_query sample_reading = false /\
   sample_reading !! "tirePressure" = Some (VInt 32)) /\
  (In tire_issue (response_issues (report_of sample_evaluation)) <-> 32 < 30).
Proof.
  split; [repeat split|].
  exact (proj1 (proj2 (X5_tire_pressure_rule (fun _ => "") sample_time
                         sample_reading [] empty_db sample_db
                         (report_of sample_evaluation) eq_refl
                         ltac:(vm_compute; reflexivity)))
           32 eq_refl).
Defined.

(** ** The shape of a report *)

(** Only the telemetry branch returns a report. *)
Lemma report_not_query (py_repr : pyval -> string) (now : datetime)
    (d0 : Telemetry) (rest : list Telemetry) (db db' : DB)
    (issues anomalies : list Issue) (score : Z)
    (diag cust sched fb : string) :
  run_maintenance py_repr now (d0 :: rest) db =
    (Ok (MaintenanceReport issues anomalies score diag cust sched fb), db') ->
  is_query d0 = false.
Proof.
  unfold run_maintenance. destruct (is_query d0); [|reflexivity].
  destruct (py_lower _); discriminate.
Qed.

Lemma Forall_of_sublist {A} (P : A -> Prop) (l k : list A) :
  sublist l k -> Forall P k -> Forall P l.
Proof.
  induction 1 as [|x l k _ IH|x l k _ IH]; intros Hk.
  - constructor.
  - inversion Hk; subst. constructor; auto.
  - inversion Hk; subst. auto.
Qed.

Lemma four_issues_distinct :
  NoDup [engine_issue; oil_issue; battery_issue; tire_issue].
Proof.
  repeat (apply NoDup_cons_2;
          [rewrite ?elem_of_cons, elem_of_nil;
           intros H; repeat destruct H as [H|H]; try discriminate H; exact H|]).
  apply NoDup_nil_2.
Qed.

(** X6. In every report the anomalies are the issues; the issues are a
    sub-sequence of engine, oil, battery, tire in that order, so there are
    at most 4 and none twice; and every issue has severity "high" or
    "medium". *)
Theorem X6_issue_list_shape
    (py_repr : pyval -> string) (now : datetime) (d0 : Telemetry)
    (rest : list Telemetry) (db db' : DB) (issues anomalies : list Issue)
    (score : Z) (diag cust sched fb : string) :
  run_maintenance py_repr now (d0 :: rest) db =
    (Ok (MaintenanceReport issues anomalies score diag cust sched fb), db') ->
  anomalies = issues /\
  sublist issues [engine_issue; oil_issue; battery_issue; tire_issue] /\
  (length issues <= 4)%nat /\
  NoDup issues /\
  Forall (fun i => severity i = "high" \/ severity i = "medium") issues.
Proof.
  intros Hrun. pose proof (report_not_query _ _ _ _ _ _ _ _ _ _ _ _ _ Hrun) as Hq.
  destruct (run_maintenance_report _ _ _ _ _ _ _ Hq Hrun) as (ev & Hev & Hr & _).
  injection Hr as -> -> _ _ _ _ _.
  apply evaluate_ok in Hev as (t & _ & Hiss & _).
  pose proof (issues_in_detection_order _ _ _ Hiss) as Hsub.
  split; [reflexivity|]. split; [exact Hsub|]. split; [|split].
  - apply sublist_length in Hsub. exact Hsub.
  - eauto using sublist_NoDup, four_issues_distinct.
  - assert (H4 : Forall (fun i => severity i = "high" \/ severity i = "medium")
                   [engine_issue; oil_issue; battery_issue; tire_issue])
      by (repeat constructor; simpl; auto).
    eauto using Forall_of_sublist.
Qed.

(** X6 on the sample reading. *)
Lemma X6_issue_list_shape_witness :
  run_maintenance (fun _ => "") sample_time [sample_reading] empty_db =
    (Ok (report_of sample_evaluation), sample_db) /\
  (length (ev_issues sample_evaluation) <= 4)%nat.
Proof.
  assert (H : run_maintenance (fun _ => "") sample_time [sample_reading] empty_db
              = (Ok (report_of sample_evaluation), sample_db))
    by (vm_compute; reflexivity).
  split; [exact H|].
  exact (proj1 (proj2 (proj2
           (X6_issue_list_shape _ _ _ _ _ _ _ _ _ _ _ _ _ H)))).
Defined.

(** ** Missing fields *)




(** ** Requests that fail *)






(** ** The schedule text and the appointment *)

(** X10. A report's schedule is "Tomorrow 10 AM" or "No appointment
    needed".  In the first case the run found issues and, when it
    returns, the store holds a Pending appointment of the fixed vehicle
    for "Tomorrow", "10:00 AM"; in the second it found none and left the
    appointments as they were. *)
Theorem X10_schedule_matches_appointment
    (py_repr : pyval -> string) (now : datetime) (d0 : Telemetry)
    (rest : list Telemetry) (db db' : DB) (issues anomalies : list Issue)
    (score : Z) (diag cust sched fb : string) :
  run_maintenance py_repr now (d0 :: rest) db =
    (Ok (MaintenanceReport issues anomalies score diag cust sched fb), db') ->
  (sched = "Tomorrow 10 AM" /\ issues <> [] /\
   exists a, In a (appointment_collection db') /\
             Appointment.vehicle_id a = FIXED_VEHICLE_ID /\
             Appointment.date a = "Tomorrow" /\
             Appointment.time a = "10:00 AM" /\
             Appointment.status a = "Pending") \/
  (sched = "No appointment needed" /\ issues = [] /\
   appointment_collection db' = appointment_collection db).
Proof.
  intros Hrun. pose proof (report_not_query _ _ _ _ _ _ _ _ _ _ _ _ _ Hrun) as Hq.
  destruct (run_maintenance_report _ _ _ _ _ _ _ Hq Hrun) as (ev & Hev & Hr & ->).
  injection Hr as -> _ _ _ _ -> _.
  destruct (evaluate_texts _ _ Hev) as (-> & _).
  simpl. unfold appointments_after.
  destruct (ev_issues ev) as [|i l]; [right; auto|].
  left. split; [reflexivity|]. split; [discriminate|].
  assert (Hfound : forall appts a,
             find_appointment FIXED_VEHICLE_ID "Tomorrow" "10:00 AM" "Pending"
               appts = Some a ->
             In a appts /\
             Appointment.vehicle_id a = FIXED_VEHICLE_ID /\
             Appointment.date a = "Tomorrow" /\
             Appointment.time a = "10:00 AM" /\
             Appointment.status a = "Pending").
  { intros appts a Hf. apply List.find_some in Hf as [Hin Hm].
    unfold appointment_matches in Hm.
    apply andb_prop in Hm as [Hm H4]. apply andb_prop in Hm as [Hm H3].
    apply andb_prop in Hm as [H1 H2].
    apply String.eqb_eq in H1, H2, H3, H4. auto. }
  destruct (find_appointment _ _ _ _ (appointment_collection db)) as [a|] eqn:Hf.
  - exists a. apply Hfound, Hf.
  - destruct (find_after_insert (PyStr.join ", " (map name (i :: l)))
                "Tomorrow" "10:00 AM" now (appointment_collection db))
      as [a Ha].
    exists a. apply Hfound, Ha.
Qed.

(** X10 on the sample reading. *)
Lemma X10_schedule_matches_appointment_witness :
  run_maintenance (fun _ => "") sample_time [sample_reading] empty_db =
    (Ok (report_of sample_evaluation), sample_db) /\
  ((ev_schedule_text sample_evaluation = "Tomorrow 10 AM" /\
    ev_issues sample_evaluation <> [] /\
    exists a, In a (appointment_collection sample_db) /\
              Appointment.vehicle_id a = FIXED_VEHICLE_ID /\
              Appointment.date a = "Tomorrow" /\
              Appointment.time a = "10:00 AM" /\
              Appointment.status a = "Pending") \/
   (ev_schedule_text sample_evaluation = "No appointment needed" /\
    ev_issues sample_evaluation = [] /\
    appointment_collection sample_db = appointment_collection empty_db)).
Proof.
  assert (H : run_maintenance (fun _ => "") sample_time [sample_reading] empty_db
              = (Ok (report_of sample_evaluation), sample_db))
    by (vm_compute; reflexivity).
  split; [exact H|].
  exact (X10_schedule_matches_appointment _ _ _ _ _ _ _ _ _ _ _ _ _ H).
Defined.

(** ** What is stored *)

(** X11. The telemetry a run stores is the reading with its ["id"] set to
    the fixed vehicle: an ["id"] sent by the client is overwritten, every
    other key is stored as sent, and the history entry of the run holds
    the same telemetry. *)
Theorem X11_stored_telemetry_has_fixed_id
    (py_repr : pyval -> string) (now : datetime) (d0 : Telemetry)
    (rest : list Telemetry) (db db' : DB) (r : Response) :
  is_query d0 = false ->
  run_maintenance py_repr now (d0 :: rest) db = (Ok r, db') ->
  exists doc t,
    stored_snapshot db' = Some doc /\
    Workflow.telemetry doc = Some t /\
    t !! "id" = Some (VStr "V101") /\
    (forall k, k <> "id" -> t !! k = d0 !! k) /\
    HistoryEntry.telemetry <$> last (stored_history db') = Some t.
Proof.
  intros Hq Hrun.
  destruct (run_maintenance_report _ _ _ _ _ _ _ Hq Hrun) as (ev & _ & _ & ->).
  eexists _, (with_id d0).
  split; [apply stored_snapshot_after_run|].
  split; [reflexivity|]. split; [apply lookup_insert_eq|].
  split; [intros k Hk; apply with_id_lookup, Hk|].
  unfold stored_history at 1. rewrite stored_snapshot_after_run. simpl.
  rewrite last_snoc. reflexivity.
Qed.

(** X11 on the sample reading. *)
Lemma X11_stored_telemetry_has_fixed_id_witness :
  (is_query sample_reading = false /\
   run_maintenance (fun _ => "") sample_time [sample_reading] empty_db =
     (Ok (report_of sample_evaluation), sample_db)) /\
  exists doc t,
    stored_snapshot sample_db = Some doc /\
    Workflow.telemetry doc = Some t /\
    t !! "id" = Some (VStr "V101") /\
    (forall k, k <> "id" -> t !! k = sample_reading !! k) /\
    HistoryEntry.telemetry <$> last (stored_history sample_db) = Some t.
Proof.
  assert (H : run_maintenance (fun _ => "") sample_time [sample_reading] empty_db
              = (Ok (report_of sample_evaluation), sample_db))
    by (vm_compute; reflexivity).
  split; [split; [reflexivity | exact H]|].
  exact (X11_stored_telemetry_has_fixed_id (fun _ => "") sample_time
           sample_reading [] empty_db sample_db (report_of sample_evaluation)
           eq_refl H).
Defined.

(** The workflow collection a sequential execution reaches from the empty
    store: empty, or the one snapshot of the latest telemetry run. *)
Lemma step_workflow_shape (py_repr : pyval -> string) (op : Op) (db : DB) :
  (workflow_collection db = [] \/
   exists doc, workflow_collection db = [doc] /\ written_by_run doc) ->
  workflow_collection (step py_repr db op) = [] \/
  exists doc, workflow_collection (step py_repr db op) = [doc] /\
              written_by_run doc.
Proof.
  intros Hshape. destruct op as [now data|now id st].
  - rewrite step_run. destruct data as [|d0 rest]; [assumption|].
    destruct (is_query d0); [assumption|].
    destruct (evaluate (with_id d0)) as [ev|e] eqn:Hev; [|assumption].
    right. eexists. split.
    + unfold db_after_run. simpl.
      destruct Hshape as [-> | (doc & -> & (rd & ev' & now' & older & _ & ->))];
        reflexivity.
    + exists d0, ev, now, (stored_history db). auto.
  - unfold step. rewrite update_keeps_workflow. assumption.
Qed.

Lemma execute_workflow_shape (py_repr : pyval -> string) (ops : list Op) :
  workflow_collection (execute py_repr ops empty_db) = [] \/
  exists doc, workflow_collection (execute py_repr ops empty_db) = [doc] /\
              written_by_run doc.
Proof.
  induction ops as [|op ops IH] using rev_ind; [left; reflexivity|].
  rewrite execute_app.
  change (execute py_repr [op] (execute py_repr ops empty_db))
    with (step py_repr (execute py_repr ops empty_db) op).
  apply step_workflow_shape, IH.
Qed.

(** X12. In every state a sequential execution reaches from the empty
    store, a stored snapshot is the only document of the workflow
    collection, has every field, and its history is not empty: the last
    entry carries the snapshot's own telemetry, issues and timestamp, and
    the schedule and feedback texts are those of its issues. *)
Theorem X12_snapshot_mirrors_last_entry
    (py_repr : pyval -> string) (ops : list Op) (doc : Workflow.Doc) :
  stored_snapshot (execute py_repr ops empty_db) = Some doc ->
  workflow_collection (execute py_repr ops empty_db) = [doc] /\
  exists t issues ch score now entries,
    Workflow.telemetry doc = Some t /\
    Workflow.issues doc = Some issues /\
    Workflow.component_health doc = Some ch /\
    Workflow.overall_health_score doc = Some score /\
    Workflow.last_updated doc = Some now /\
    Workflow.history doc = Some entries /\
    last entries = Some {| HistoryEntry.timestamp := now;
                           HistoryEntry.telemetry := t;
                           HistoryEntry.issues := issues |} /\
    Workflow.diagnosis_summary doc = Some (diagnosis_text_of issues) /\
    Workflow.customer_friendly_message doc = Some (customer_message_of issues) /\
    Workflow.predicted_schedule doc = Some (schedule_text_of issues) /\
    Workflow.feedback doc = Some (feedback_of issues).
Proof.
  intros Hdoc.
  destruct (execute_workflow_shape py_repr ops)
    as [Hnil | (doc' & Hone & (rd & ev & now & older & Hev & Hd))].
  - unfold stored_snapshot in Hdoc. rewrite Hnil in Hdoc. discriminate.
  - unfold stored_snapshot in Hdoc. rewrite Hone in Hdoc.
    assert (doc' = doc) as <-.
    { subst doc'. simpl in Hdoc. congruence. }
    split; [exact Hone|].
    destruct (evaluate_texts _ _ Hev) as (Hs & Hdg & Hc).
    exists (with_id rd), (ev_issues ev), (ev_component_health ev),
           (ev_overall_health ev), now, (older ++ [new_entry now rd ev])%list.
    subst doc'. simpl. rewrite last_snoc, Hs, Hdg, Hc.
    repeat split.
Qed.

(** X12 on the store after the sample run. *)
Lemma X12_snapshot_mirrors_last_entry_witness :
  stored_snapshot
    (execute (fun _ => "") [RunMaintenance sample_time [sample_reading]] empty_db)
    = Some sample_snapshot /\
  workflow_collection
    (execute (fun _ => "") [RunMaintenance sample_time [sample_reading]] empty_db)
    = [sample_snapshot].
Proof.
  assert (H : stored_snapshot
                (execute (fun _ => "")
                   [RunMaintenance sample_time [sample_reading]] empty_db)
              = Some sample_snapshot) by (vm_compute; reflexivity).
  split; [exact H|].
  exact (proj1 (X12_snapshot_mirrors_last_entry (fun _ => "")
                  [RunMaintenance sample_time [sample_reading]]
                  sample_snapshot H)).
Defined.

Lemma step_keeps_snapshot (py_repr : pyval -> string) (op : Op) (db : DB) :
  is_Some (stored_snapshot db) -> is_Some (stored_snapshot (step py_repr db op)).
Proof.
  intros Hs. destruct op as [now data|now id st].
  - rewrite step_run. destruct data as [|d0 rest]; [assumption|].
    destruct (is_query d0); [assumption|].
    destruct (evaluate (with_id d0)) as [ev|e]; [|assumption].
    rewrite stored_snapshot_after_run. eauto.
  - unfold stored_snapshot, step in *. rewrite update_keeps_workflow.
    assumption.
Qed.

(** X13. Nothing deletes a snapshot or shortens its history: once the
    fixed vehicle has a snapshot, every later sequence of requests leaves
    one, with a history at least as long. *)
Theorem X13_snapshot_is_never_deleted
    (py_repr : pyval -> string) (ops : list Op) (db : DB) :
  is_Some (stored_snapshot db) ->
  is_Some (stored_snapshot (execute py_repr ops db)) /\
  (length (stored_history db)
   <= length (stored_history (execute py_repr ops db)))%nat.
Proof.
  intros Hs. split.
  - revert db Hs. induction ops as [|op ops IH]; intros db Hs; [assumption|].
    change (execute py_repr (op :: ops) db)
      with (execute py_repr ops (step py_repr db op)).
    apply IH, step_keeps_snapshot, Hs.
  - rewrite execute_history, length_app. lia.
Qed.

(** X13 on the sample store followed by a query and a failing request. *)
Lemma X13_snapshot_is_never_deleted_witness :
  is_Some (stored_snapshot sample_db) /\
  is_Some (stored_snapshot
             (execute (fun _ => "")
                [RunMaintenance later_time [health_question];
                 RunMaintenance later_time [numeric_temp_reading]] sample_db)).
Proof.
  assert (H : is_Some (stored_snapshot sample_db)).
  { unfold sample_db. rewrite stored_snapshot_after_run. eauto. }
  split; [exact H|].
  exact (proj1 (X13_snapshot_is_never_deleted (fun _ => "")
                  [RunMaintenance later_time [health_question];
                   RunMaintenance later_time [numeric_temp_reading]]
                  sample_db H)).
Defined.

(** ** Appointments: identifiers and status updates *)

Lemma update_status_ids id st now appts :
  map Appointment._id (fst (update_status id st now appts))
    = map Appointment._id appts.
Proof.
  induction appts as [|a appts IH]; simpl; [reflexivity|].
  destruct (Nat.eqb (Appointment._id a) id); simpl; [reflexivity|].
  destruct (update_status id st now appts) as [c n]. simpl in *.
  rewrite IH. reflexivity.
Qed.

Lemma update_status_unknown id st now appts :
  ~ In id (map Appointment._id appts) ->
  update_status id st now appts = (appts, 0%nat).
Proof.
  induction appts as [|a appts IH]; simpl; [reflexivity|].
  intros Hn. destruct (Nat.eqb_spec (Appointment._id a) id) as [He|_].
  - exfalso. auto.
  - rewrite IH by auto. reflexivity.
Qed.

Lemma update_status_known id st now appts :
  In id (map Appointment._id appts) ->
  snd (update_status id st now appts) = 1%nat.
Proof.
  induction appts as [|a appts IH]; simpl; [tauto|].
  intros Hin. destruct (Nat.eqb_spec (Appointment._id a) id) as [He|Hne].
  - reflexivity.
  - destruct Hin as [?|Hin]; [contradiction|].
    specialize (IH Hin).
    destruct (update_status id st now appts) as [c n]. exact IH.
Qed.

Lemma update_status_unique id st now appts :
  NoDup (map Appointment._id appts) ->
  fst (update_status id st now appts) =
    map (fun a => if Nat.eqb (Appointment._id a) id
                  then with_status st now a else a) appts.
Proof.
  induction appts as [|a appts IH]; simpl; [reflexivity|].
  intros Hnd. apply NoDup_cons in Hnd as [Hna Hnd].
  destruct (Nat.eqb_spec (Appointment._id a) id) as [He|Hne]; simpl.
  - unfold with_status. f_equal.
    assert (Hno : ~ In id (map Appointment._id appts)).
    { rewrite <- He, <- list_elem_of_In. exact Hna. }
    clear -Hno. induction appts as [|b appts IH]; simpl; [reflexivity|].
    destruct (Nat.eqb_spec (Appointment._id b) id) as [Hb|_].
    + exfalso. apply Hno. simpl. auto.
    + rewrite <- IH; [reflexivity|]. intros H. apply Hno. simpl. auto.
  - specialize (IH Hnd).
    destruct (update_status id st now appts) as [c n]. simpl in *.
    rewrite IH. reflexivity.
Qed.

Lemma fresh_id_above (appts : list Appointment.Doc) (n : nat) :
  In n (map Appointment._id appts) -> (n < fresh_id appts)%nat.
Proof.
  unfold fresh_id. induction appts as [|a appts IH]; simpl; [tauto|].
  intros [<-|Hin]; [lia|]. specialize (IH Hin). lia.
Qed.

Lemma appointments_after_ids now issues appts :
  exists more,
    map Appointment._id (appointments_after now issues appts)
      = (map Appointment._id appts ++ more)%list /\
    (NoDup (map Appointment._id appts) ->
     NoDup (map Appointment._id (appointments_after now issues appts))).
Proof.
  unfold appointments_after.
  destruct issues as [|i l];
    [exists []; rewrite app_nil_r; auto|].
  destruct (find_appointment _ _ _ _ _);
    [exists []; rewrite app_nil_r; auto|].
  exists [fresh_id appts]. unfold insert_appointment.
  rewrite map_app. simpl. split; [reflexivity|].
  intros Hnd. apply NoDup_app. split; [exact Hnd|]. split.
  - intros n Hn Hin. apply list_elem_of_In in Hn.
    apply fresh_id_above in Hn.
    apply list_elem_of_singleton in Hin. lia.
  - apply NoDup_singleton.
Qed.

Lemma step_ids (py_repr : pyval -> string) (op : Op) (db : DB) :
  exists more,
    appointment_ids (step py_repr db op) = (appointment_ids db ++ more)%list /\
    (NoDup (appointment_ids db) -> NoDup (appointment_ids (step py_repr db op))).
Proof.
  unfold appointment_ids. destruct op as [now data|now id st].
  - rewrite step_run.
    assert (Hsame : exists more,
               map Appointment._id (appointment_collection db)
                 = (map Appointment._id (appointment_collection db) ++ more)%list
               /\ (NoDup (map Appointment._id (appointment_collection db)) ->
                   NoDup (map Appointment._id (appointment_collection db))))
      by (exists []; rewrite app_nil_r; auto).
    destruct data as [|d0 rest]; [exact Hsame|].
    destruct (is_query d0); [exact Hsame|].
    destruct (evaluate (with_id d0)) as [ev|e]; [|exact Hsame].
    simpl. apply appointments_after_ids.
  - unfold step. rewrite update_appointments, update_status_ids.
    exists []. rewrite app_nil_r. auto.
Qed.

(** X14. No request deletes or reorders an appointment: after any
    sequence of requests the identifiers in the store are the ones it
    held before, in the same order, followed by those of the appointments
    booked since. *)
Theorem X14_appointments_are_never_deleted
    (py_repr : pyval -> string) (ops : list Op) (db : DB) :
  exists more,
    appointment_ids (execute py_repr ops db)
      = (appointment_ids db ++ more)%list.
Proof.
  revert db. induction ops as [|op ops IH]; intros db.
  - exists []. simpl. by rewrite app_nil_r.
  - change (execute py_repr (op :: ops) db)
      with (execute py_repr ops (step py_repr db op)).
    destruct (IH (step py_repr db op)) as (more2 & ->).
    destruct (step_ids py_repr op db) as (more1 & -> & _).
    exists (more1 ++ more2)%list. by rewrite app_assoc.
Qed.

(** X15. The appointments a sequential execution books on the empty store
    have pairwise different identifiers. *)
Theorem X15_appointment_ids_are_unique
    (py_repr : pyval -> string) (ops : list Op) :
  NoDup (appointment_ids (execute py_repr ops empty_db)).
Proof.
  induction ops as [|op ops IH] using rev_ind; [apply NoDup_nil_2|].
  rewrite execute_app.
  change (execute py_repr [op] (execute py_repr ops empty_db))
    with (step py_repr (execute py_repr ops empty_db) op).
  destruct (step_ids py_repr op (execute py_repr ops empty_db)) as (_ & _ & H).
  apply H, IH.
Qed.

(** X16. A status update answers 404 exactly when no stored appointment
    has the identifier, and then leaves the database as it was; when one
    has it, the update succeeds and changes neither the workflow
    collection nor the identifiers of the appointments. *)
Theorem X16_status_update_404_iff_unknown
    (now : datetime) (id : nat) (st : string) (db : DB) :
  (~ In id (appointment_ids db) ->
   update_appointment_status now id st db = (Raise (HTTPException 404), db)) /\
  (In id (appointment_ids db) ->
   exists db',
     update_appointment_status now id st db
       = (Ok "Appointment status updated successfully", db') /\
     workflow_collection db' = workflow_collection db /\
     appointment_ids db' = appointment_ids db).
Proof.
  unfold appointment_ids. split.
  - intros Hn. unfold update_appointment_status.
    rewrite (update_status_unknown _ _ _ _ Hn). destruct db; reflexivity.
  - intros Hin. unfold update_appointment_status.
    pose proof (update_status_known id st now _ Hin) as Hk.
    pose proof (update_status_ids id st now (appointment_collection db)) as Hi.
    destruct (update_status id st now (appointment_collection db)) as [c n].
    simpl in Hk, Hi. subst n. simpl. eexists. split; [reflexivity|]. auto.
Qed.

(** X16 on an identifier the sample store does not hold, and on one it
    does. *)
Lemma X16_status_update_404_iff_unknown_witness :
  (~ In 7%nat (appointment_ids sample_db) /\
   In 1%nat (appointment_ids sample_db)) /\
  update_appointment_status later_time 7 "Resolved" sample_db
    = (Raise (HTTPException 404), sample_db) /\
  exists db',
    update_appointment_status later_time 1 "Resolved" sample_db
      = (Ok "Appointment status updated successfully", db') /\
    workflow_collection db' = workflow_collection sample_db /\
    appointment_ids db' = appointment_ids sample_db.
Proof.
  assert (H7 : ~ In 7%nat (appointment_ids sample_db)).
  { vm_compute. intros [H|[]]. discriminate H. }
  assert (H1 : In 1%nat (appointment_ids sample_db)).
  { vm_compute. auto. }
  split; [split; assumption|]. split.
  - exact (proj1 (X16_status_update_404_iff_unknown later_time 7 "Resolved"
                    sample_db) H7).
  - exact (proj2 (X16_status_update_404_iff_unknown later_time 1 "Resolved"
                    sample_db) H1).
Defined.

(** X17. Where identifiers are unique, a status update rewrites the status
    and [updated_at] of the appointment with that identifier and nothing
    else: every other appointment, and every other field of the updated
    one, is what it was. *)
Theorem X17_status_update_touches_one_appointment
    (now : datetime) (id : nat) (st : string) (db : DB) :
  NoDup (appointment_ids db) ->
  appointment_collection (snd (update_appointment_status now id st db)) =
    map (fun a => if Nat.eqb (Appointment._id a) id
                  then with_status st now a else a)
      (appointment_collection db).
Proof.
  intros Hnd. rewrite update_appointments.
  apply update_status_unique, Hnd.
Qed.

(** X17 on the sample store. *)
Lemma X17_status_update_touches_one_appointment_witness :
  NoDup (appointment_ids sample_db) /\
  appointment_collection
    (snd (update_appointment_status later_time 1 "In Progress" sample_db)) =
    map (fun a => if Nat.eqb (Appointment._id a) 1
                  then with_status "In Progress" later_time a else a)
      (appointment_collection sample_db).
Proof.
  assert (H : NoDup (appointment_ids sample_db)).
  { vm_compute. apply NoDup_singleton. }
  split; [exact H|].
  exact (X17_status_update_touches_one_appointment later_time 1 "In Progress"
           sample_db H).
Defined.

(** ** The two appointment lists *)

(** X18. [GET /appointments] and [GET /appointments/history] split the
    appointments of the fixed vehicle in two: each of them is in exactly
    one list (the history when its status is "Resolved", the active list
    for any other status), both lists keep the stored order, and no
    appointment of another vehicle is listed. *)
Theorem X18_active_and_history_partition (db : DB) :
  (forall a, In a (appointment_collection db) ->
             Appointment.vehicle_id a = FIXED_VEHICLE_ID ->
             (In a (get_appointment_history db) /\
              ~ In a (get_active_appointments db) /\
              Appointment.status a = "Resolved") \/
             (In a (get_active_appointments db) /\
              ~ In a (get_appointment_history db) /\
              Appointment.status a <> "Resolved")) /\
  (forall a, In a (get_active_appointments db ++ get_appointment_history db) ->
             In a (appointment_collection db) /\
             Appointment.vehicle_id a = FIXED_VEHICLE_ID) /\
  sublist (get_active_appointments db) (appointment_collection db) /\
  sublist (get_appointment_history db) (appointment_collection db) /\
  (length (get_active_appointments db) + length (get_appointment_history db)
   <= length (appointment_collection db))%nat.
Proof.
  unfold get_active_appointments, get_appointment_history.
  assert (Hsub : forall (p : Appointment.Doc -> bool) l,
             sublist (List.filter p l) l).
  { intros p l. induction l as [|a l IH]; simpl; [constructor|].
    destruct (p a); constructor; exact IH. }
  split; [|split; [|split; [|split]]].
  - intros a Hin Hv. rewrite !filter_In, Hv, String.eqb_refl. simpl.
    destruct (String.eqb_spec (Appointment.status a) "Resolved") as [He|Hne].
    + left. simpl. repeat split; auto. intros [_ ?]. discriminate.
    + right. simpl. repeat split; auto. intros [_ ?]. discriminate.
  - intros a Hin. apply in_app_iff in Hin.
    rewrite !filter_In in Hin.
    destruct Hin as [[Hin Hp]|[Hin Hp]]; apply andb_prop in Hp as [Hv _];
      apply String.eqb_eq in Hv; auto.
  - apply Hsub.
  - apply Hsub.
  - induction (appointment_collection db) as [|a l IH]; simpl; [lia|].
    destruct (String.eqb (Appointment.vehicle_id a) FIXED_VEHICLE_ID),
             (String.eqb (Appointment.status a) "Resolved"); simpl; lia.
Qed.

Lemma sample_db_appointments :
  appointment_collection sample_db = [sample_appointment].
Proof. vm_compute. reflexivity. Qed.

(** X18 on the appointment of the sample store. *)
Lemma X18_active_and_history_partition_witness :
  (In sample_appointment (appointment_collection sample_db) /\
   Appointment.vehicle_id sample_appointment = FIXED_VEHICLE_ID) /\
  In sample_appointment (get_active_appointments sample_db) /\
  ~ In sample_appointment (get_appointment_history sample_db).
Proof.
  assert (Hin : In sample_appointment (appointment_collection sample_db))
    by (rewrite sample_db_appointments; left; reflexivity).
  split; [split; [exact Hin | reflexivity]|].
  destruct (proj1 (X18_active_and_history_partition sample_db)
              sample_appointment Hin eq_refl)
    as [(_ & _ & Hs)|(Ha & Hh & _)]; [discriminate Hs | split; assumption].
Defined.

(** X19. Where identifiers are unique, resolving an appointment of the
    fixed vehicle moves it from the active list to the history: after a
    status update to "Resolved" it is listed in the history and no active
    appointment has its identifier; after an update to any other status it
    is listed as active. *)
Theorem X19_resolving_moves_to_history
    (now : datetime) (st : string) (db : DB) (a : Appointment.Doc) :
  NoDup (appointment_ids db) ->
  In a (appointment_collection db) ->
  Appointment.vehicle_id a = FIXED_VEHICLE_ID ->
  let db' := snd (update_appointment_status now (Appointment._id a) st db) in
  (st = "Resolved" ->
   In (with_status st now a) (get_appointment_history db') /\
   forall b, In b (get_active_appointments db') ->
             Appointment._id b <> Appointment._id a) /\
  (st <> "Resolved" -> In (with_status st now a) (get_active_appointments db')).
Proof.
  intros Hnd Hin Hv db'.
  assert (Hcoll : appointment_collection db' =
                  map (fun b => if Nat.eqb (Appointment._id b) (Appointment._id a)
                                then with_status st now b else b)
                    (appointment_collection db)).
  { subst db'. rewrite update_appointments.
    apply update_status_unique, Hnd. }
  assert (Hnew : In (with_status st now a) (appointment_collection db')).
  { rewrite Hcoll. apply in_map_iff. exists a.
    rewrite Nat.eqb_refl. auto. }
  unfold get_appointment_history, get_active_appointments. split.
  - intros ->. split.
    + apply filter_In. split; [exact Hnew|]. simpl. rewrite Hv. reflexivity.
    + intros b Hb Hid. apply filter_In in Hb as [Hb Hp].
      rewrite Hcoll in Hb. apply in_map_iff in Hb as (c & Hc & _).
      destruct (Nat.eqb_spec (Appointment._id c) (Appointment._id a)) as [He|Hne].
      * subst b. simpl in Hp. rewrite andb_false_r in Hp. discriminate.
      * subst b. contradiction.
  - intros Hst. apply filter_In. split; [exact Hnew|]. simpl. rewrite Hv.
    simpl. apply negb_true_iff, String.eqb_neq, Hst.
Qed.

(** X19 on the appointment of the sample store. *)
Lemma X19_resolving_moves_to_history_witness :
  (NoDup (appointment_ids sample_db) /\
   In sample_appointment (appointment_collection sample_db) /\
   Appointment.vehicle_id sample_appointment = FIXED_VEHICLE_ID /\
   "Resolved" = "Resolved") /\
  In (with_status "Resolved" later_time sample_appointment)
     (get_appointment_history
        (snd (update_appointment_status later_time 1 "Resolved" sample_db))).
Proof.
  assert (Hnd : NoDup (appointment_ids sample_db)).
  { vm_compute. apply NoDup_singleton. }
  assert (Hin : In sample_appointment (appointment_collection sample_db))
    by (rewrite sample_db_appointments; left; reflexivity).
  split; [repeat split; assumption|].
  exact (proj1 (proj1 (X19_resolving_moves_to_history later_time "Resolved"
                         sample_db sample_appointment Hnd Hin eq_refl) eq_refl)).
Defined.

(** ** Reading back what a run stored *)

Lemma zero_score_run :
  run_maintenance (fun _ => "") sample_time [zero_score_reading] empty_db
    = (Ok (report_of zero_score_evaluation), zero_score_db).
Proof. vm_compute. reflexivity. Qed.





Lemma voice_query_answer (py_repr : pyval -> string) (now : datetime)
    (message : string) (db : DB) :
  voice_query py_repr now message db =
    (Ok (answer_query py_repr (stored_snapshot db) (PyStr.lower message)), db).
Proof. reflexivity. Qed.

(** X21. After a telemetry run a voice query reads that run back: a
    question about "health" gets the reported score (0 included), one
    about issues the reported issue names, one about the schedule the
    reported schedule text, and one about the engine temperature the
    [engineTemp] string as it was sent, or "Not available" when the
    reading had none. *)
Theorem X21_voice_query_reads_latest_run
    (py_repr : pyval -> string) (now later : datetime) (d0 : Telemetry)
    (rest : list Telemetry) (db db' : DB) (issues anomalies : list Issue)
    (score : Z) (diag cust sched fb : string) (message : string) :
  run_maintenance py_repr now (d0 :: rest) db =
    (Ok (MaintenanceReport issues anomalies score diag cust sched fb), db') ->
  let asks (word : string) := PyStr.contains word (PyStr.lower message) in
  exists reply,
    voice_query py_repr later message db' = (Ok reply, db') /\
    (asks "health" = true ->
     reply = "Your vehicle health score is " +:+ PyStr.of_int score +:+ "%") /\
    (asks "health" = false ->
     asks "issue" || asks "problem" = true ->
     reply = match issues with
             | [] => "There are no current issues."
             | _ => "Current issues: " +:+ PyStr.join ", " (map name issues)
             end) /\
    (asks "health" = false ->
     asks "issue" || asks "problem" = false ->
     asks "schedule" || asks "maintenance" = true ->
     reply = "Your maintenance is scheduled for " +:+ sched +:+ ".") /\
    (asks "health" = false ->
     asks "issue" || asks "problem" = false ->
     asks "schedule" || asks "maintenance" = false ->
     asks "engine temperature" || asks "engine temp" = true ->
     (forall s, d0 !! "engineTemp" = Some (VStr s) ->
        reply = "Your engine temperature is " +:+ s +:+ ".") /\
     (d0 !! "engineTemp" = None ->
        reply = "Your engine temperature is Not available.")).
Proof.
  intros Hrun asks.
  pose proof (report_not_query _ _ _ _ _ _ _ _ _ _ _ _ _ Hrun) as Hq.
  destruct (run_maintenance_report _ _ _ _ _ _ _ Hq Hrun) as (ev & Hev & Hr & ->).
  injection Hr as -> _ -> _ _ -> _.
  eexists. split; [apply voice_query_answer|].
  rewrite stored_snapshot_after_run. unfold answer_query.
  fold (asks "health") (asks "issue") (asks "problem") (asks "schedule")
    (asks "maintenance") (asks "engine temperature") (asks "engine temp").
  simpl. rewrite with_id_lookup by discriminate.
  split; [|split; [|split]].
  - intros ->. reflexivity.
  - intros -> ->. destruct (ev_issues ev); reflexivity.
  - intros -> -> ->. reflexivity.
  - intros -> -> -> ->. split.
    + intros s ->. reflexivity.
    + intros ->. reflexivity.
Qed.

(** X21 on the reading that scores 0: the voice reply says 0%. *)
Lemma X21_voice_query_reads_latest_run_witness :
  (run_maintenance (fun _ => "") sample_time [zero_score_reading] empty_db
     = (Ok (report_of zero_score_evaluation), zero_score_db) /\
   PyStr.contains "health" (PyStr.lower "How is my HEALTH?") = true) /\
  voice_query (fun _ => "") later_time "How is my HEALTH?" zero_score_db
    = (Ok "Your vehicle health score is 0%", zero_score_db).
Proof.
  split; [split; [exact zero_score_run | reflexivity]|].
  destruct (X21_voice_query_reads_latest_run (fun _ => "") sample_time
              later_time _ _ _ _ _ _ _ _ _ _ _ "How is my HEALTH?"
              zero_score_run)
    as (reply & Hv & Hh & _).
  rewrite Hv, (Hh eq_refl). reflexivity.
Defined.

(** X22. [POST /voice-query] never raises and never writes: for every
    message and every database it returns a reply and leaves the database
    as it was; the reply is the one [run_maintenance] gives to the
    message-only request, and with no snapshot stored it is the canned
    healthy message. *)
Theorem X22_voice_query_never_fails
    (py_repr : pyval -> string) (now : datetime) (message : string) (db : DB) :
  exists reply,
    voice_query py_repr now message db = (Ok reply, db) /\
    run_maintenance py_repr now [ {["user_message" := VStr message]} ] db
      = (Ok (QueryReply reply), db) /\
    (stored_snapshot db = None ->
     reply = "Your vehicle is healthy. No issues detected.").
Proof.
  eexists. split; [apply voice_query_answer|]. split; [reflexivity|].
  intros ->. reflexivity.
Qed.

(** X22 on the empty store. *)
Lemma X22_voice_query_never_fails_witness :
  stored_snapshot empty_db = None /\
  voice_query (fun _ => "") sample_time "Any problem?" empty_db
    = (Ok "Your vehicle is healthy. No issues detected.", empty_db).
Proof.
  split; [reflexivity|].
  destruct (X22_voice_query_never_fails (fun _ => "") sample_time
              "Any problem?" empty_db) as (reply & Hv & _ & Hn).
  rewrite Hv, (Hn eq_refl). reflexivity.
Defined.

(** ** The statistics *)

Lemma count_issues_total (acc : nat * nat) (issues : list Issue) :
  count_issues acc issues =
    ((fst acc + length issues)%nat,
     (snd acc + length (List.filter
                          (fun i => String.eqb (severity i) "high") issues))%nat).
Proof.
  unfold count_issues. revert acc.
  induction issues as [|i issues IH]; intros [n c]; simpl.
  - f_equal; lia.
  - rewrite IH. simpl.
    destruct (String.eqb (severity i) "high"); simpl; f_equal; lia.
Qed.

Lemma stats_fold (docs : list Workflow.Doc) (acc : nat * nat) :
  (snd acc <= fst acc)%nat ->
  (snd (fold_left
          (fun acc doc => count_issues acc (default [] (Workflow.issues doc)))
          docs acc)
   <= fst (fold_left
             (fun acc doc => count_issues acc (default [] (Workflow.issues doc)))
             docs acc))%nat.
Proof.
  revert acc. induction docs as [|doc docs IH]; intros acc Hacc; [exact Hacc|].
  simpl. apply IH. rewrite count_issues_total. simpl.
  pose proof (length_filter_le (fun i => String.eqb (severity i) "high")
                (default [] (Workflow.issues doc))). lia.
Qed.

(** X23. In [GET /dashboard/stats] the critical count never exceeds the
    issue count.  On a store reached from the empty one, [total_runs] is
    the number of snapshots, 0 or 1 however many runs were made, and
    [total_issues] is the number of issues of the latest run, at most 4:
    the counters are not cumulative. *)
Theorem X23_stats_count_the_snapshot
    (py_repr : pyval -> string) (ops : list Op) (db : DB) :
  (critical_issues (get_dashboard_stats db)
   <= total_issues (get_dashboard_stats db))%nat /\
  total_runs (get_dashboard_stats db) = length (workflow_collection db) /\
  (db = execute py_repr ops empty_db ->
   (total_runs (get_dashboard_stats db) <= 1)%nat /\
   (total_issues (get_dashboard_stats db) <= 4)%nat /\
   (stored_snapshot db = None ->
    get_dashboard_stats db =
      {| total_runs := 0; total_issues := 0; critical_issues := 0 |}) /\
   (forall doc, stored_snapshot db = Some doc ->
      total_runs (get_dashboard_stats db) = 1%nat /\
      total_issues (get_dashboard_stats db)
        = length (default [] (Workflow.issues doc)))).
Proof.
  split; [|split].
  - unfold get_dashboard_stats.
    pose proof (stats_fold (workflow_collection db) (0%nat, 0%nat)
                  ltac:(simpl; lia)) as H.
    destruct (fold_left _ _ _) as [n c]. exact H.
  - unfold get_dashboard_stats. destruct (fold_left _ _ _). reflexivity.
  - intros ->.
    destruct (execute_workflow_shape py_repr ops)
      as [Hnil | (doc & Hone & (rd & ev & now & older & Hev & Hd))].
    + unfold get_dashboard_stats, stored_snapshot. rewrite Hnil. simpl.
      split; [lia|]. split; [lia|]. split; [reflexivity|].
      intros d H. discriminate H.
    + unfold get_dashboard_stats, stored_snapshot. rewrite Hone. simpl.
      rewrite count_issues_total. simpl.
      apply evaluate_ok in Hev as (t & _ & Hiss & _).
      apply issues_in_detection_order, sublist_length in Hiss.
      simpl in Hiss.
      assert (Hv : Workflow.vehicle_id doc = FIXED_VEHICLE_ID)
        by (subst doc; reflexivity).
      rewrite Hv. simpl.
      assert (Hi : default [] (Workflow.issues doc) = ev_issues ev)
        by (subst doc; reflexivity).
      rewrite Hi.
      split; [lia|]. split; [exact Hiss|]. split; [discriminate|].
      intros doc' [= <-]. rewrite Hi. auto.
Qed.

(** X23 after two runs: one snapshot, the two issues of the later run. *)
Lemma X23_stats_count_the_snapshot_witness :
  execute (fun _ => "") same_reading_twice empty_db
    = execute (fun _ => "") same_reading_twice empty_db /\
  total_runs
    (get_dashboard_stats (execute (fun _ => "") same_reading_twice empty_db))
    = 1%nat /\
  total_issues
    (get_dashboard_stats (execute (fun _ => "") same_reading_twice empty_db))
    = 2%nat.
Proof.
  split; [reflexivity|].
  destruct (proj2 (proj2 (X23_stats_count_the_snapshot (fun _ => "")
                            same_reading_twice
                            (execute (fun _ => "") same_reading_twice empty_db)))
              eq_refl) as (_ & _ & _ & Hdoc).
  destruct (stored_snapshot (execute (fun _ => "") same_reading_twice empty_db))
    as [doc|] eqn:E; [|vm_compute in E; discriminate E].
  destruct (Hdoc doc eq_refl) as [H1 H2].
  split; [exact H1|]. rewrite H2.
  vm_compute in E. injection E as <-. reflexivity.
Defined.

(** ** When the analytics raise *)







(** ** What the analytics look at *)

Lemma last_n_last_n {A} (n m : nat) (l : list A) :
  (n <= m)%nat -> last_n n (last_n m l) = last_n n l.
Proof.
  intros Hnm. unfold last_n. rewrite drop_drop, length_drop.
  f_equal. lia.
Qed.

(** X25. [GET /analytics/full] reads the current issues and the last 24
    history entries and nothing else: two stores whose snapshots agree on
    these get the same answer, whatever the older history is. *)
Theorem X25_analytics_read_last_24
    (db1 db2 : DB) (doc1 doc2 : Workflow.Doc) :
  stored_snapshot db1 = Some doc1 ->
  stored_snapshot db2 = Some doc2 ->
  default [] (Workflow.issues doc1) = default [] (Workflow.issues doc2) ->
  last_n 24 (default [] (Workflow.history doc1))
    = last_n 24 (default [] (Workflow.history doc2)) ->
  get_full_analytics db1 = get_full_analytics db2.
Proof.
  intros H1 H2 Hi Hh. unfold get_full_analytics.
  unfold stored_snapshot in H1, H2. rewrite H1, H2, Hi.
  unfold build_series. rewrite Hh.
  rewrite <- (last_n_last_n 6 24 (default [] (Workflow.history doc1))) by lia.
  rewrite <- (last_n_last_n 6 24 (default [] (Workflow.history doc2))) by lia.
  rewrite Hh. reflexivity.
Qed.

(** X25 on two stores that differ in a 25th entry. *)
Lemma X25_analytics_read_last_24_witness :
  (stored_snapshot (db_with_snapshot (snapshot_with_history history_of_25))
     = Some (snapshot_with_history history_of_25) /\
   stored_snapshot (db_with_snapshot (snapshot_with_history history_of_24))
     = Some (snapshot_with_history history_of_24) /\
   last_n 24 history_of_25 = last_n 24 history_of_24) /\
  get_full_analytics (db_with_snapshot (snapshot_with_history history_of_25))
  = get_full_analytics (db_with_snapshot (snapshot_with_history history_of_24)).
Proof.
  split; [repeat split|].
  exact (X25_analytics_read_last_24
           (db_with_snapshot (snapshot_with_history history_of_25))
           (db_with_snapshot (snapshot_with_history history_of_24))
           (snapshot_with_history history_of_25)
           (snapshot_with_history history_of_24)
           eq_refl eq_refl eq_refl eq_refl).
Defined.

(** ** What a report depends on *)

Lemma string_app_nil_r (s : string) : s +:+ "" = s.
Proof.
  induction s as [|c s IH]; [reflexivity|].
  change (String c s +:+ "") with (String c (s +:+ "")). by rewrite IH.
Qed.

Lemma string_app_assoc (s1 s2 s3 : string) :
  (s1 +:+ s2) +:+ s3 = s1 +:+ (s2 +:+ s3).
Proof.
  induction s1 as [|c s1 IH]; [reflexivity|].
  change ((String c s1 +:+ s2) +:+ s3) with (String c ((s1 +:+ s2) +:+ s3)).
  change (String c s1 +:+ (s2 +:+ s3)) with (String c (s1 +:+ (s2 +:+ s3))).
  by rewrite IH.
Qed.

Lemma fold_left_message (f : Issue -> string) (issues : list Issue)
    (acc : string) :
  fold_left (fun msg i => msg +:+ f i) issues acc =
    acc +:+ fold_left (fun msg i => msg +:+ f i) issues "".
Proof.
  revert acc. induction issues as [|i issues IH]; intros acc; simpl.
  - symmetry. apply string_app_nil_r.
  - rewrite IH. rewrite (IH ("" +:+ f i)). simpl. apply string_app_assoc.
Qed.

Lemma first_issue_texts (i : Issue) (l : list Issue) :
  In i [engine_issue; oil_issue; battery_issue; tire_issue] ->
  diagnosis_text_of (i :: l) <> "No issues detected." /\
  customer_message_of (i :: l) <> "Everything is normal.".
Proof.
  intros Hi. split.
  - unfold diagnosis_text_of.
    cbn [map PyStr.join].
    destruct Hi as [<-|[<-|[<-|[<-|[]]]]]; destruct l; discriminate.
  - unfold customer_message_of. cbn [fold_left].
    rewrite (fold_left_message
               (fun i => name i +:+ " (" +:+ severity i +:+ "): "
                           +:+ recommended_action i +:+ ". ")).
    destruct Hi as [<-|[<-|[<-|[<-|[]]]]]; discriminate.
Qed.

(** X26. The fields of a report agree on whether anything was found: the
    issue list is empty exactly when the diagnosis is "No issues
    detected.", exactly when the customer message is "Everything is
    normal.", exactly when the schedule is "No appointment needed", and
    exactly when the feedback is "System operating normally.". *)
Theorem X26_report_fields_agree
    (py_repr : pyval -> string) (now : datetime) (d0 : Telemetry)
    (rest : list Telemetry) (db db' : DB) (issues anomalies : list Issue)
    (score : Z) (diag cust sched fb : string) :
  run_maintenance py_repr now (d0 :: rest) db =
    (Ok (MaintenanceReport issues anomalies score diag cust sched fb), db') ->
  (issues = [] <-> diag = "No issues detected.") /\
  (issues = [] <-> cust = "Everything is normal.") /\
  (issues = [] <-> sched = "No appointment needed") /\
  (issues = [] <-> fb = "System operating normally.").
Proof.
  intros Hrun. pose proof (report_not_query _ _ _ _ _ _ _ _ _ _ _ _ _ Hrun) as Hq.
  destruct (run_maintenance_report _ _ _ _ _ _ _ Hq Hrun) as (ev & Hev & Hr & _).
  injection Hr as -> _ _ -> -> -> ->.
  destruct (evaluate_texts _ _ Hev) as (-> & -> & ->).
  apply evaluate_ok in Hev as (t & _ & Hiss & _).
  apply issues_in_detection_order in Hiss.
  destruct (ev_issues ev) as [|i l].
  - repeat split; reflexivity.
  - assert (Hi : In i [engine_issue; oil_issue; battery_issue; tire_issue]).
    { apply list_elem_of_In. eapply sublist_submseteq, elem_of_submseteq in Hiss;
        [exact Hiss | left]. }
    destruct (first_issue_texts i l Hi) as [Hd Hc].
    repeat split; intros H; try discriminate H; contradiction.
Qed.

(** X26 on the sample reading. *)
Lemma X26_report_fields_agree_witness :
  run_maintenance (fun _ => "") sample_time [sample_reading] empty_db =
    (Ok (report_of sample_evaluation), sample_db) /\
  (ev_issues sample_evaluation = []
   <-> ev_schedule_text sample_evaluation = "No appointment needed").
Proof.
  assert (H : run_maintenance (fun _ => "") sample_time [sample_reading] empty_db
              = (Ok (report_of sample_evaluation), sample_db))
    by (vm_compute; reflexivity).
  split; [exact H|].
  exact (proj1 (proj2 (proj2
           (X26_report_fields_agree _ _ _ _ _ _ _ _ _ _ _ _ _ H)))).
Defined.

(** X27. The issues depend on the reading only through [engineTemp],
    [oilPressure], [batteryVoltage] and [tirePressure]; the component
    health and the overall score only through [engineTemp],
    [batteryVoltage], [vibration] and [tirePressure].  So the oil pressure
    never changes a score and the vibration never changes the issues. *)
Theorem X27_what_the_outputs_depend_on
    (t1 t2 : Telemetry) (ev1 ev2 : Evaluation) :
  evaluate t1 = Ok ev1 ->
  evaluate t2 = Ok ev2 ->
  (Forall (fun k => t1 !! k = t2 !! k)
     ["engineTemp"; "oilPressure"; "batteryVoltage"; "tirePressure"] ->
   ev_issues ev1 = ev_issues ev2) /\
  (Forall (fun k => t1 !! k = t2 !! k)
     ["engineTemp"; "batteryVoltage"; "vibration"; "tirePressure"] ->
   ev_component_health ev1 = ev_component_health ev2 /\
   ev_overall_health ev1 = ev_overall_health ev2).
Proof.
  intros H1 H2.
  apply evaluate_ok in H1 as (ta & Hta & Hi1 & Hc1 & Ho1).
  apply evaluate_ok in H2 as (tb & Htb & Hi2 & Hc2 & Ho2).
  split.
  - intros Hk. rewrite !Forall_cons in Hk.
    destruct Hk as (He & Hoil & Hbat & Htire & _).
    unfold engine_temp_of in Hta, Htb. rewrite He in Hta.
    assert (ta = tb) as -> by congruence.
    unfold detect_issues in Hi1, Hi2.
    rewrite Hoil, Hbat, Htire in Hi1. congruence.
  - intros Hk. rewrite !Forall_cons in Hk.
    destruct Hk as (He & Hbat & Hvib & Htire & _).
    unfold engine_temp_of in Hta, Htb. rewrite He in Hta.
    assert (ta = tb) as -> by congruence.
    unfold component_health_of in Hc1, Hc2.
    rewrite Hbat, Hvib, Htire in Hc1.
    assert (Hch : ev_component_health ev1 = ev_component_health ev2)
      by congruence.
    split; [exact Hch|]. rewrite Hch in Ho1. congruence.
Qed.

(** X27 on the sample reading with and without an oil pressure. *)
Lemma X27_what_the_outputs_depend_on_witness :
  (evaluate (with_id sample_reading) = Ok sample_evaluation /\
   is_ok (evaluate (delete "oilPressure" (with_id sample_reading))) = true /\
   Forall (fun k => with_id sample_reading !! k
                    = delete "oilPressure" (with_id sample_reading) !! k)
     ["engineTemp"; "batteryVoltage"; "vibration"; "tirePressure"]) /\
  forall ev2,
    evaluate (delete "oilPressure" (with_id sample_reading)) = Ok ev2 ->
    ev_overall_health ev2 = 86.
Proof.
  assert (Hk : Forall (fun k => with_id sample_reading !! k
                        = delete "oilPressure" (with_id sample_reading) !! k)
                 ["engineTemp"; "batteryVoltage"; "vibration"; "tirePressure"])
    by (repeat constructor).
  split; [split; [exact sample_evaluates | split; [vm_compute; reflexivity | exact Hk]]|].
  intros ev2 H2.
  destruct (proj2 (X27_what_the_outputs_depend_on (with_id sample_reading)
                     (delete "oilPressure" (with_id sample_reading))
                     sample_evaluation ev2 sample_evaluates H2) Hk) as [_ <-].
  reflexivity.
Defined.

(** X28. [run_maintenance] processes the first element of [data] and
    ignores the rest; and on the telemetry branch what it returns (the
    report or the exception) depends on that reading alone, not on the
    clock nor on what the database holds. *)
Theorem X28_only_first_reading_counts
    (py_repr : pyval -> string) (now now' : datetime) (d0 : Telemetry)
    (rest rest' : list Telemetry) (db db' : DB) :
  run_maintenance py_repr now (d0 :: rest) db
    = run_maintenance py_repr now (d0 :: rest') db /\
  (is_query d0 = false ->
   fst (run_maintenance py_repr now (d0 :: rest) db)
     = fst (run_maintenance py_repr now' (d0 :: rest') db')).
Proof.
  split; [reflexivity|].
  intros Hq. rewrite !run_maintenance_eval by assumption.
  destruct (evaluate (with_id d0)); reflexivity.
Qed.

(** X28 on the sample reading sent alone to the empty store and sent
    first of two to the sample store. *)
Lemma X28_only_first_reading_counts_witness :
  is_query sample_reading = false /\
  fst (run_maintenance (fun _ => "") sample_time [sample_reading] empty_db)
    = fst (run_maintenance (fun _ => "") later_time
             [sample_reading; low_battery_reading] sample_db).
Proof.
  split; [reflexivity|].
  exact (proj2 (X28_only_first_reading_counts (fun _ => "") sample_time
                  later_time sample_reading [] [low_battery_reading]
                  empty_db sample_db) eq_refl).
Defined.
